(** * Sales analytics dashboard: generator and aggregation pipeline

    A shallow embedding of [src/data/generate_data.py] (the synthetic order
    generator) and of the data path of [src/app/app.py] (filter, KPI cards,
    grouped views, raw-data search).

    Conventions of the embedding:
    - a DataFrame is the list of its rows, a column is [map] of a field;
    - Python and NumPy floats are idealised as exact rationals ([Q]), so
      sums and products carry no rounding error and [round] acts on the
      exact value; a result that pandas reports as NaN (or as an infinity)
      is [None].  Only statements that hold with or without the rounding of
      binary64 are drawn from these.  The return rate, whose last digit the
      binary rounding decides, is computed in binary64 itself;
    - text is ASCII ([string]);
    - [numpy.random] is an interface ([NumpyRandom]) with the ranges its
      documentation promises; the Mersenne Twister itself is not modelled. *)

From Stdlib Require Import List ZArith QArith Qround Bool Lia Lqa.
From Stdlib Require Import Permutation Sorted FinFun.
From Stdlib Require Import Ascii String DecimalString DecimalZ.
From Stdlib Require PrimFloat FloatOps SpecFloat Uint63Axioms.
Import ListNotations.

Local Open Scope Z_scope.

(* ================================================================== *)
(** ** Scalars and their text *)

(** [str(n)] of an integer. *)
Definition str_int (z : Z) : string :=
  NilEmpty.string_of_int (Z.to_int z).

(** A decimal numeral padded on the left with zeros to [width] digits, as
    [%02d] / [%04d] do inside [strftime]. *)
Fixpoint zero_pad (width : nat) (s : string) : string :=
  match width with
  | O => s
  | S w => if (String.length s <? width)%nat then zero_pad w ("0" ++ s) else s
  end.

(** Round half to even to an integer, the rounding of [rint]. *)
Definition rint (x : Q) : Z :=
  let f := Qfloor x in
  match Qcompare (x - inject_Z f) (1 # 2) with
  | Lt => f
  | Gt => f + 1
  | Eq => if Z.even f then f else f + 1
  end.

(** [round(x, ndigits)]: scale by ten to the [ndigits], round half to even,
    scale back. *)
Definition round_nd (ndigits : nat) (x : Q) : Q :=
  inject_Z (rint (x * inject_Z (10 ^ Z.of_nat ndigits)))
  / inject_Z (10 ^ Z.of_nat ndigits).

(** The shortest decimal text of a non-negative value with at most two
    decimals, which is what [repr] gives for the floats the generator writes:
    ["150.0"], ["19.5"], ["1199.99"]. *)
Definition repr_float (x : Q) : string :=
  let cents := rint (x * 100)%Q in
  let frac := cents mod 100 in
  (str_int (cents / 100) ++ "." ++
   (if (frac mod 10 =? 0)%Z then str_int (frac / 10)%Z
    else zero_pad 2 (str_int frac)))%string.

(* ================================================================== *)
(** ** Calendar dates

    A [datetime] at midnight is its proleptic Gregorian day number counted
    from 1970-01-01; differences and [timedelta(days=k)] are then integer
    arithmetic, and comparing two dates compares the numbers. *)

Definition date := Z.

(** Day number of a calendar date. *)
Definition datetime (y m d : Z) : date :=
  let y' := if m <=? 2 then y - 1 else y in
  let era := y' / 400 in
  let yoe := y' - era * 400 in
  let mp := (m + 9) mod 12 in
  let doy := (153 * mp + 2) / 5 + d - 1 in
  let doe := yoe * 365 + yoe / 4 - yoe / 100 + doy in
  era * 146097 + doe - 719468.

(** Calendar date [(year, month, day)] of a day number. *)
Definition ymd (t : date) : Z * Z * Z :=
  let z := t + 719468 in
  let era := z / 146097 in
  let doe := z - era * 146097 in
  let yoe := (doe - doe / 1460 + doe / 36524 - doe / 146096) / 365 in
  let doy := doe - (365 * yoe + yoe / 4 - yoe / 100) in
  let mp := (5 * doy + 2) / 153 in
  let d := doy - (153 * mp + 2) / 5 + 1 in
  let m := if mp <? 10 then mp + 3 else mp - 9 in
  (if m <=? 2 then yoe + era * 400 + 1 else yoe + era * 400, m, d).

Definition year (t : date) : Z := fst (fst (ymd t)).
Definition month (t : date) : Z := snd (fst (ymd t)).
Definition day (t : date) : Z := snd (ymd t).

(** [timedelta(days=k)] added to a date. *)
Definition add_days (t : date) (k : Z) : date := t + k.

(** [(b - a).days]. *)
Definition days_between (a b : date) : Z := b - a.

Definition month_abbr (m : Z) : string :=
  nth (Z.to_nat (m - 1))
      ["Jan"; "Feb"; "Mar"; "Apr"; "May"; "Jun";
       "Jul"; "Aug"; "Sep"; "Oct"; "Nov"; "Dec"]%string ""%string.

(** [date.strftime("%Y-%m-%d")]. *)
Definition strftime_iso (t : date) : string :=
  (zero_pad 4 (str_int (year t)) ++ "-" ++ zero_pad 2 (str_int (month t))
   ++ "-" ++ zero_pad 2 (str_int (day t)))%string.

(** [date.strftime("%b %Y")]. *)
Definition strftime_month (t : date) : string :=
  (month_abbr (month t) ++ " " ++ zero_pad 4 (str_int (year t)))%string.

(** [f"Q{(date.month-1)//3 + 1} {date.year}"]. *)
Definition quarter_label (t : date) : string :=
  ("Q" ++ str_int ((month t - 1) / 3 + 1)%Z ++ " " ++ str_int (year t))%string.

(** [str] of a pandas [Timestamp] at midnight. *)
Definition str_timestamp (t : date) : string :=
  (strftime_iso t ++ " 00:00:00")%string.

(* ================================================================== *)
(** ** The order table *)

(** One generated record: the dictionary built in the generator's loop, in key
    order.  [Date] holds the date itself; its [%Y-%m-%d] text is produced when
    the row is written. *)
Record Order := mkOrder {
  OrderID : string;
  Date : date;
  Month : string;
  Quarter : string;
  Year : Z;
  Category : string;
  Product : string;
  UnitPrice : Q;
  Quantity : Z;
  Discount : Z;
  Revenue : Q;
  Profit : Q;
  Region : string;
  City : string;
  Channel : string;
  PaymentMethod : string;
  Rating : Q;
  Returned : Z
}.

(** A row of the dashboard's table: the columns of the file and the three
    columns [load_data] adds. *)
Record Row := mkRow {
  order :> Order;
  MonthNum : string;
  DayOfWeek : string;
  WeekNum : Z
}.

Definition DataFrame := list Row.

(** [dt.day_name()]: day 0 (1970-01-01) was a Thursday. *)
Definition day_name (t : date) : string :=
  nth (Z.to_nat ((t + 3) mod 7))
      ["Monday"; "Tuesday"; "Wednesday"; "Thursday"; "Friday"; "Saturday";
       "Sunday"]%string ""%string.

(** [dt.to_period('M').astype(str)]. *)
Definition month_period (t : date) : string :=
  (zero_pad 4 (str_int (year t)) ++ "-" ++ zero_pad 2 (str_int (month t)))%string.

(** Number of ISO weeks of a year: 53 when it starts on a Thursday, or on a
    Wednesday and is a leap year. *)
Definition iso_weeks_in_year (y : Z) : Z :=
  let jan1 := datetime y 1 1 in
  let wd := (jan1 + 3) mod 7 + 1 in
  let leap := datetime (y + 1) 1 1 - jan1 =? 366 in
  if (wd =? 4) || (leap && (wd =? 3)) then 53 else 52.

(** [dt.isocalendar().week]. *)
Definition iso_week (t : date) : Z :=
  let y := year t in
  let doy := t - datetime y 1 1 + 1 in
  let wd := (t + 3) mod 7 + 1 in
  let w := (doy - wd + 10) / 7 in
  if w <? 1 then iso_weeks_in_year (y - 1)
  else if iso_weeks_in_year y <? w then 1
  else w.

(** [load_data]: the rows of the file with [MonthNum], [DayOfWeek] and
    [WeekNum] derived from the parsed [Date]. *)
Definition load_row (o : Order) : Row :=
  mkRow o (month_period (Date o)) (day_name (Date o)) (iso_week (Date o)).

Definition load_data (file_rows : list Order) : DataFrame :=
  map load_row file_rows.

Definition column {A : Type} (f : Row -> A) (df : DataFrame) : list A :=
  map f df.

(* ================================================================== *)
(** ** Sidebar filters ([fdf]) *)

(** [Series.isin(values)]: one boolean per cell. *)
Definition isin {A : Type} (eqb : A -> A -> bool) (col values : list A)
  : list bool :=
  map (fun v => existsb (eqb v) values) col.

(** [a & b] on boolean Series. *)
Definition series_and (a b : list bool) : list bool :=
  map (fun xy => fst xy && snd xy) (combine a b).

(** [df[mask]]: the rows whose mask cell is true, in table order. *)
Fixpoint boolean_index {A : Type} (df : list A) (mask : list bool) : list A :=
  match df, mask with
  | r :: df', b :: mask' =>
      if b then r :: boolean_index df' mask' else boolean_index df' mask'
  | _, _ => []
  end.

(** The four multiselect values. *)
Record FilterSpec := mkFilter {
  sel_years : list Z;
  sel_cats : list string;
  sel_regions : list string;
  sel_channels : list string
}.

Definition fdf (df : DataFrame) (s : FilterSpec) : DataFrame :=
  boolean_index df
    (series_and
       (series_and
          (series_and (isin Z.eqb (column Year df) (sel_years s))
                      (isin String.eqb (column Category df) (sel_cats s)))
          (isin String.eqb (column Region df) (sel_regions s)))
       (isin String.eqb (column Channel df) (sel_channels s))).

(** The test a row has to pass, cell by cell. *)
Definition row_passes (s : FilterSpec) (r : Row) : bool :=
  existsb (Z.eqb (Year r)) (sel_years s)
  && existsb (String.eqb (Category r)) (sel_cats s)
  && existsb (String.eqb (Region r)) (sel_regions s)
  && existsb (String.eqb (Channel r)) (sel_channels s).

(** [l1] is [l2] with some elements dropped and none moved. *)
Inductive subseq {A : Type} : list A -> list A -> Prop :=
| subseq_nil : subseq [] []
| subseq_skip x l1 l2 : subseq l1 l2 -> subseq l1 (x :: l2)
| subseq_keep x l1 l2 : subseq l1 l2 -> subseq (x :: l1) (x :: l2).

(* ================================================================== *)
(** ** Series reductions, sorting, group-by *)

(** [Series.sum()]; an empty Series sums to 0. *)
Definition series_sum (col : list Q) : Q := fold_right Qplus 0%Q col.

Definition int_sum (col : list Z) : Z := fold_right Z.add 0 col.

(** [len(df)] and [count] of a column without missing cells. *)
Definition count {A : Type} (col : list A) : Z := Z.of_nat (List.length col).

(** Float division as NumPy does it: a zero divisor gives no finite value
    (NaN or an infinity, with a warning at most), never an exception. *)
Definition float_div (a b : Q) : option Q :=
  if Qeq_bool b 0 then None else Some (a / b)%Q.

(** [Series.mean()]: the sum over the length, NaN for an empty Series. *)
Definition series_mean (col : list Q) : option Q :=
  float_div (series_sum col) (inject_Z (count col)).

(** [x < y] on floats. *)
Definition Qlt_bool (x y : Q) : bool := negb (Qle_bool y x).

(** Stable insertion sort for a boolean order [leb]: the order left by
    [list.sort()] and by [sort_values] up to the placement of ties. *)
Fixpoint insert_sorted {A : Type} (leb : A -> A -> bool) (x : A) (l : list A)
  : list A :=
  match l with
  | [] => [x]
  | y :: l' => if leb x y then x :: l else y :: insert_sorted leb x l'
  end.

Definition sort {A : Type} (leb : A -> A -> bool) (l : list A) : list A :=
  fold_right (insert_sorted leb) [] l.

(** [Series.unique()]: the distinct values in order of first appearance. *)
Fixpoint unique (l : list string) : list string :=
  match l with
  | [] => []
  | x :: l' => x :: remove string_dec x (unique l')
  end.

(** The group keys of [df.groupby(key)]: the distinct values of the key
    column, ascending. *)
Definition group_keys (key : Row -> string) (df : DataFrame) : list string :=
  sort String.leb (unique (column key df)).

(** [df.groupby(key)]: one group per distinct key, keys ascending, each group
    holding its rows in table order.  A key without rows has no group. *)
Definition groupby (key : Row -> string) (df : DataFrame)
  : list (string * DataFrame) :=
  map (fun k => (k, filter (fun r => String.eqb (key r) k) df))
      (group_keys key df).

(* ================================================================== *)
(** ** KPI cards *)

Definition total_rev (fdf : DataFrame) : Q := series_sum (column Revenue fdf).
Definition total_profit (fdf : DataFrame) : Q := series_sum (column Profit fdf).
Definition total_orders (fdf : DataFrame) : Z := count fdf.
Definition avg_order (fdf : DataFrame) : option Q :=
  series_mean (column Revenue fdf).
Definition profit_margin (fdf : DataFrame) : Q :=
  if Qlt_bool 0 (total_rev fdf)
  then (total_profit fdf / total_rev fdf * 100)%Q
  else 0%Q.

(* ================================================================== *)
(** ** Grouped views *)

(** [cat_rev]: revenue per category, largest first. *)
Definition cat_rev (fdf : DataFrame) : list (string * Q) :=
  sort (fun a b => Qle_bool (snd b) (snd a))
       (map (fun g => (fst g, series_sum (column Revenue (snd g))))
            (groupby Category fdf)).

(** *** Doubles and 64-bit integers

    The return rate is the one measure whose last digit depends on binary
    rounding, so it is computed as the code computes it: in IEEE-754 binary64
    (the kernel's primitive floats), from an [int64] sum. *)

Definition float64 := PrimFloat.float.

(** An integer reduced to the [int64] range, as an overflowing addition
    leaves it. *)
Definition wrap64 (z : Z) : Z := (z + 2 ^ 63) mod 2 ^ 64 - 2 ^ 63.

(** [sum] of an [int64] column: each addition wraps around.  (A sum modulo
    2^64 does not depend on the order of the additions.) *)
Definition int64_sum (col : list Z) : Z :=
  fold_right (fun x acc => wrap64 (x + acc)) 0 col.

(** The double nearest to an [int64], ties to even: the conversion of an
    integer operand of a float operation. *)
Definition double_of_int64 (z : Z) : float64 :=
  if z =? - 2 ^ 63
  then PrimFloat.opp
         (PrimFloat.mul (PrimFloat.of_uint63 (Uint63Axioms.of_Z (2 ^ 62)))
                        (PrimFloat.of_uint63 (Uint63Axioms.of_Z 2)))
  else if z <? 0
       then PrimFloat.opp (PrimFloat.of_uint63 (Uint63Axioms.of_Z (- z)))
       else PrimFloat.of_uint63 (Uint63Axioms.of_Z z).

Definition two52 : float64 := double_of_int64 (2 ^ 52).

(** [rint]: the nearest integer, ties to even.  Below 2^52 in magnitude,
    adding and removing 2^52 rounds to it, and a zero result takes the sign
    of the argument; from 2^52 on every double is an integer, and infinities
    and NaN are returned as they are. *)
Definition rint64 (x : float64) : float64 :=
  if PrimFloat.ltb (PrimFloat.abs x) two52
  then let r := if PrimFloat.ltb x (double_of_int64 0)
                then PrimFloat.add (PrimFloat.sub x two52) two52
                else PrimFloat.sub (PrimFloat.add x two52) two52 in
       if PrimFloat.eqb r (double_of_int64 0)
       then PrimFloat.mul x (double_of_int64 0)
       else r
  else x.

(** [ndarray.round(decimals)] on doubles, which is what [Series.round]
    calls: multiply by ten to the [decimals], [rint], divide back. *)
Definition np_around (decimals : nat) (x : float64) : float64 :=
  PrimFloat.div
    (rint64 (PrimFloat.mul x (double_of_int64 (10 ^ Z.of_nat decimals))))
    (double_of_int64 (10 ^ Z.of_nat decimals)).

(** What a double stands for: a rational, an infinity, or not a number. *)
Inductive fvalue :=
| Finite (q : Q)
| PosInf
| NegInf
| NaN.

Definition value_of (x : float64) : fvalue :=
  match FloatOps.Prim2SF x with
  | SpecFloat.S754_zero _ => Finite 0
  | SpecFloat.S754_infinity false => PosInf
  | SpecFloat.S754_infinity true => NegInf
  | SpecFloat.S754_nan => NaN
  | SpecFloat.S754_finite s m e =>
      Finite (Qred ((if s then -1 else 1)
                    * (if 0 <=? e then inject_Z (Zpos m * 2 ^ e)
                       else Zpos m # Z.to_pos (2 ^ (- e)))))
  end.

(** The order [sort_values] uses on a float column, as a test [a <= b]:
    the order of the values, with NaN below everything so that a descending
    sort leaves it last. *)
Definition fvalue_leb (a b : fvalue) : bool :=
  match a, b with
  | NaN, _ => true
  | _, NaN => false
  | NegInf, _ => true
  | _, NegInf => false
  | _, PosInf => true
  | PosInf, _ => false
  | Finite x, Finite y => Qle_bool x y
  end.

(** A row of the [returns] frame. *)
Record ReturnsRow := mkReturnsRow {
  ret_Category : string;
  TotalOrders : Z;
  Returns : Z;
  ReturnRate : float64
}.

(** [(returns['Returns'] / returns['TotalOrders'] * 100).round(1)] on one
    row: the two integers become doubles, the quotient and the product are
    rounded to double, and the result is rounded to one decimal. *)
Definition return_rate (ret total : Z) : float64 :=
  np_around 1
    (PrimFloat.mul
       (PrimFloat.div (double_of_int64 ret) (double_of_int64 total))
       (double_of_int64 100)).

(** [returns] with its [ReturnRate] column. *)
Definition returns (fdf : DataFrame) : list ReturnsRow :=
  map (fun g =>
         let total := count (column OrderID (snd g)) in
         let ret := int64_sum (column Returned (snd g)) in
         mkReturnsRow (fst g) total ret (return_rate ret total))
      (groupby Category fdf).

(** [returns.sort_values('ReturnRate', ascending=False)], the frame plotted. *)
Definition returns_sorted (fdf : DataFrame) : list ReturnsRow :=
  sort (fun a b => fvalue_leb (value_of (ReturnRate b)) (value_of (ReturnRate a)))
       (returns fdf).


Definition dow_order : list string :=
  ["Monday"; "Tuesday"; "Wednesday"; "Thursday"; "Friday"; "Saturday";
   "Sunday"]%string.

(** A row of the [dow] frame; a measure that [reindex] had to fill is
    missing. *)
Record DowRow := mkDowRow {
  dow_DayOfWeek : string;
  dow_Orders : option Z;
  dow_Revenue : option Q
}.

(** [agg.reindex(labels)]: one row per label, in label order, taken from the
    aggregate when the label is one of its keys and filled with missing
    values otherwise; keys outside [labels] are dropped. *)
Definition reindex (agg : list (string * (Z * Q))) (labels : list string)
  : list DowRow :=
  map (fun l =>
         match find (fun e => String.eqb (fst e) l) agg with
         | Some e => mkDowRow l (Some (fst (snd e))) (Some (snd (snd e)))
         | None => mkDowRow l None None
         end)
      labels.

Definition dow (fdf : DataFrame) : list DowRow :=
  reindex
    (map (fun g => (fst g, (count (column OrderID (snd g)),
                            series_sum (column Revenue (snd g)))))
         (groupby DayOfWeek fdf))
    dow_order.

(** The row [reindex] produces for one day name. *)
Definition dow_row (t : DataFrame) (d : string) : DowRow :=
  let grp := filter (fun r => String.eqb (DayOfWeek r) d) t in
  if existsb (String.eqb d) (column DayOfWeek t)
  then mkDowRow d (Some (count grp)) (Some (series_sum (column Revenue grp)))
  else mkDowRow d None None.

(* ================================================================== *)
(** ** Raw-data search *)

Definition lower_ascii (c : ascii) : ascii :=
  let n := nat_of_ascii c in
  if ((65 <=? n) && (n <=? 90))%nat then ascii_of_nat (n + 32) else c.

Fixpoint lower (s : string) : string :=
  match s with
  | EmptyString => EmptyString
  | String c s' => String (lower_ascii c) (lower s')
  end.

Fixpoint is_prefix (p s : string) : bool :=
  match p, s with
  | EmptyString, _ => true
  | String a p', String b s' => Ascii.eqb a b && is_prefix p' s'
  | String _ _, EmptyString => false
  end.

Fixpoint is_substring (p s : string) : bool :=
  is_prefix p s
  || match s with
     | EmptyString => false
     | String _ s' => is_substring p s'
     end.

(** The characters the [re] module gives a meaning of their own. *)
Definition regex_special : list ascii :=
  ["."; "^"; "$"; "*"; "+"; "?"; "{"; "}"; "["; "]"; "\"; "|"; "("; ")"]%char.

Fixpoint is_literal (pat : string) : bool :=
  match pat with
  | EmptyString => true
  | String c pat' =>
      negb (existsb (Ascii.eqb c) regex_special) && is_literal pat'
  end.

(** [Series.str.contains(pat, case=False)] on one cell.  pandas reads [pat] as
    a regular expression; a pattern without special characters matches
    exactly where it occurs, letter case aside.  Patterns with special
    characters are outside this model: [None]. *)
Definition str_contains (pat s : string) : option bool :=
  if is_literal pat then Some (is_substring (lower pat) (lower s)) else None.

Fixpoint sequence {A : Type} (l : list (option A)) : option (list A) :=
  match l with
  | [] => Some []
  | None :: _ => None
  | Some x :: l' => option_map (cons x) (sequence l')
  end.

(** The columns shown by [st.dataframe]. *)
Definition displayed_cells (float_str : Q -> string) (r : Row) : list string :=
  [OrderID r; str_timestamp (Date r); Category r; Product r;
   str_int (Quantity r); float_str (UnitPrice r); str_int (Discount r);
   float_str (Revenue r); float_str (Profit r); Region r; City r; Channel r;
   float_str (Rating r)].

Section Search.

(** [str] of a float cell. *)
Variable float_str : Q -> string.

(** [row.astype(str)]: the text of every cell of the row, all twenty-one
    columns of the loaded table. *)
Definition astype_str (r : Row) : list string :=
  [OrderID r; str_timestamp (Date r); Month r; Quarter r; str_int (Year r);
   Category r; Product r; float_str (UnitPrice r); str_int (Quantity r);
   str_int (Discount r); float_str (Revenue r); float_str (Profit r);
   Region r; City r; Channel r; PaymentMethod r; float_str (Rating r);
   str_int (Returned r); MonthNum r; DayOfWeek r; str_int (WeekNum r)].

(** The lambda of [display_df.apply(..., axis=1)]. *)
Definition row_mask (search : string) (r : Row) : option bool :=
  option_map (existsb (fun b : bool => b))
             (sequence (map (str_contains search) (astype_str r))).

(** [display_df] before the column projection and [head]. *)
Definition display_df (fdf : DataFrame) (search : string)
  : option DataFrame :=
  match search with
  | EmptyString => Some fdf
  | _ => option_map (boolean_index fdf) (sequence (map (row_mask search) fdf))
  end.

(** The mask of a row for a term without special characters. *)
Definition literal_mask (search : string) (r : Row) : bool :=
  existsb (fun cell => is_substring (lower search) (lower cell))
          (astype_str r).

End Search.

(** A cell contains [term] as a substring, letter case aside. *)
Definition contains_ci (term cell : string) : Prop :=
  exists pre mid post : string,
    cell = (pre ++ mid ++ post)%string /\ lower mid = lower term.

(** The search as the specification words it: only the displayed columns are
    looked at. *)
Definition spec_search_includes (float_str : Q -> string) (search : string)
  (r : Row) : Prop :=
  exists cell, In cell (displayed_cells float_str r) /\ contains_ci search cell.

(* ================================================================== *)
(** ** The generator: configuration *)

Definition START_DATE : date := datetime 2022 1 1.
Definition END_DATE : date := datetime 2024 12 31.
Definition N_ORDERS : nat := 5000.

Record CatInfo := mkCatInfo {
  products : list string;
  price_range : Z * Z
}.

Definition CATEGORIES : list (string * CatInfo) :=
  [("Electronics",
    mkCatInfo ["Laptop"; "Smartphone"; "Tablet"; "Headphones"; "Smartwatch"]
              (150, 1200));
   ("Clothing",
    mkCatInfo ["T-Shirt"; "Jeans"; "Jacket"; "Dress"; "Shoes"] (20, 200));
   ("Home & Living",
    mkCatInfo ["Sofa"; "Lamp"; "Bedsheet"; "Curtains"; "Cookware"] (30, 800));
   ("Books",
    mkCatInfo ["Fiction"; "Non-Fiction"; "Textbook"; "Comic"; "Biography"]
              (10, 80));
   ("Sports",
    mkCatInfo ["Yoga Mat"; "Dumbbells"; "Cycle"; "Tennis Racket"; "Shoes"]
              (25, 500));
   ("Beauty",
    mkCatInfo ["Perfume"; "Skincare Kit"; "Lipstick"; "Hair Dryer"; "Serum"]
              (15, 250))]%string.

Definition REGIONS : list string :=
  ["North"; "South"; "East"; "West"; "Central"]%string.

Definition CITIES : list (string * list string) :=
  [("North", ["Delhi"; "Chandigarh"; "Amritsar"]);
   ("South", ["Bangalore"; "Chennai"; "Hyderabad"]);
   ("East", ["Kolkata"; "Bhubaneswar"; "Patna"]);
   ("West", ["Mumbai"; "Pune"; "Ahmedabad"]);
   ("Central", ["Bhopal"; "Indore"; "Nagpur"])]%string.

Definition CHANNELS : list string :=
  ["Website"; "Mobile App"; "Marketplace"; "Direct"]%string.

Definition PAYMENT : list string :=
  ["Credit Card"; "Debit Card"; "UPI"; "Net Banking"; "COD"]%string.

(** [list(d.keys())]. *)
Definition keys {V : Type} (d : list (string * V)) : list string :=
  map fst d.

(** [d[k]] for a key of the dictionary; [dflt] stands for the [KeyError] of a
    key that is not there, which no call below can meet since every key
    looked up was drawn from the dictionary's own keys. *)
Definition dict_get {V : Type} (dflt : V) (d : list (string * V)) (k : string)
  : V :=
  match find (fun e => String.eqb (fst e) k) d with
  | Some e => snd e
  | None => dflt
  end.

(** [CATEGORIES[category]]. *)
Definition category_info (category : string) : CatInfo :=
  dict_get (mkCatInfo [] (0, 0)) CATEGORIES category.

(** [CITIES[region]]. *)
Definition cities_of (region : string) : list string :=
  dict_get [] CITIES region.

Definition total_days : Z := days_between START_DATE END_DATE.

(* ================================================================== *)
(** ** The generator: random draws *)

(** The part of [numpy.random] the generator calls, over the global
    generator state.  Each draw returns a value and the next state; the laws
    are the ranges NumPy documents. *)
Class NumpyRandom := {
  rng_state : Type;
  (** State installed by [np.random.seed(n)]. *)
  seeded : Z -> rng_state;
  (** [np.random.randint(low, high)]. *)
  randint : Z -> Z -> rng_state -> Z * rng_state;
  (** [np.random.rand()]. *)
  rand : rng_state -> Q * rng_state;
  (** [np.random.uniform(low, high)]. *)
  uniform : Q -> Q -> rng_state -> Q * rng_state;
  (** Position picked by [np.random.choice] among [n] entries, with the
      weights [p] when given. *)
  choice_index : nat -> option (list Q) -> rng_state -> nat * rng_state;
  randint_range : forall lo hi s,
    lo < hi -> lo <= fst (randint lo hi s) < hi;
  rand_range : forall s, (0 <= fst (rand s) /\ fst (rand s) < 1)%Q;
  uniform_range : forall lo hi s,
    (lo <= hi -> lo <= fst (uniform lo hi s) /\ fst (uniform lo hi s) <= hi)%Q;
  choice_index_range : forall n p s,
    (0 < n)%nat -> (fst (choice_index n p s) < n)%nat
}.

Section Generator.

Context {R : NumpyRandom}.

(** Computations over the global generator state. *)
Definition M (A : Type) : Type := rng_state -> A * rng_state.

Definition ret {A : Type} (a : A) : M A := fun s => (a, s).

Definition bind {A B : Type} (c : M A) (k : A -> M B) : M B :=
  fun s => let (a, s') := c s in k a s'.

Notation "x <- c ;; k" := (bind c (fun x => k))
  (at level 61, c at next level, right associativity).

(** [np.random.seed(n)]: whatever the state was, it is now [seeded n]. *)
Definition np_seed (n : Z) : M unit := fun _ => (tt, seeded n).

(** [np.random.choice(l, p=p)].  [dflt] stands for the [ValueError] of an
    empty [l]; every list passed below is a non-empty literal. *)
Definition np_choice {A : Type} (dflt : A) (l : list A) (p : option (list Q))
  : M A :=
  fun s => let (i, s') := choice_index (List.length l) p s in
           (nth i l dflt, s').

(** [START_DATE + timedelta(days=np.random.randint(0, total_days))]. *)
Definition draw_date : M date :=
  k <- randint 0 total_days ;;
  ret (add_days START_DATE k).

(** The body of the first loop: a date, drawn again with probability 0.3
    when it falls in October to December.  [rand] is called only for such
    a date, as the [and] of the source evaluates its right side only
    then. *)
Definition gen_date : M date :=
  d <- draw_date ;;
  redraw <- (if existsb (Z.eqb (month d)) [10; 11; 12]
             then u <- rand ;; ret (Qlt_bool u (3 # 10))
             else ret false) ;;
  if redraw : bool then draw_date else ret d.

(** The first loop: [n] dates in the order drawn. *)
Fixpoint gen_dates (n : nat) : M (list date) :=
  match n with
  | O => ret []
  | S n' =>
      d <- gen_date ;;
      rest <- gen_dates n' ;;
      ret (d :: rest)
  end.

(** The body of the second loop: the record of order number [i].  The
    amounts are computed on exact rationals: [round_nd] rounds the exact
    product where the script rounds its binary64 value, which lies within a
    rounding error of it and can fall on the other side of a half cent. *)
Definition gen_record (i : Z) (date : date) : M Order :=
  category <- np_choice ""%string (keys CATEGORIES)
                (Some [25 # 100; 20 # 100; 15 # 100; 10 # 100; 15 # 100;
                       15 # 100]) ;;
  let cat_info := category_info category in
  product <- np_choice ""%string (products cat_info) None ;;
  let (lo, hi) := price_range cat_info in
  u <- uniform (inject_Z lo) (inject_Z hi) ;;
  let price := round_nd 2 u in
  qty <- np_choice 0 [1; 1; 1; 2; 2; 3]
           (Some [40 # 100; 20 # 100; 10 # 100; 15 # 100; 10 # 100;
                  5 # 100]) ;;
  discount <- np_choice 0 [0; 5; 10; 15; 20; 25]
                (Some [30 # 100; 20 # 100; 20 # 100; 15 # 100; 10 # 100;
                       5 # 100]) ;;
  let revenue :=
    round_nd 2 (price * inject_Z qty * (1 - inject_Z discount / 100))%Q in
  m <- uniform (15 # 100) (40 # 100) ;;
  let profit := round_nd 2 (revenue * m)%Q in
  region <- np_choice ""%string REGIONS None ;;
  city <- np_choice ""%string (cities_of region) None ;;
  channel <- np_choice ""%string CHANNELS
               (Some [35 # 100; 30 # 100; 25 # 100; 10 # 100]) ;;
  payment <- np_choice ""%string PAYMENT
               (Some [25 # 100; 20 # 100; 30 # 100; 10 # 100; 15 # 100]) ;;
  rating0 <- np_choice 0%Q [3 # 1; 35 # 10; 4 # 1; 45 # 10; 5 # 1]%Q
               (Some [5 # 100; 10 # 100; 30 # 100; 35 # 100; 20 # 100]) ;;
  let rating := round_nd 1 rating0 in
  returned <- np_choice 0 [0; 1] (Some [92 # 100; 8 # 100]) ;;
  ret {| OrderID := ("ORD-" ++ str_int (10000 + i))%string;
         Date := date;
         Month := strftime_month date;
         Quarter := quarter_label date;
         Year := year date;
         Category := category;
         Product := product;
         UnitPrice := price;
         Quantity := qty;
         Discount := discount;
         Revenue := revenue;
         Profit := profit;
         Region := region;
         City := city;
         Channel := channel;
         PaymentMethod := payment;
         Rating := rating;
         Returned := returned |}.

(** The second loop, [for i, date in enumerate(dates)], from index [i]. *)
Fixpoint gen_records (i : Z) (dates : list date) : M (list Order) :=
  match dates with
  | [] => ret []
  | date :: dates' =>
      r <- gen_record i date ;;
      rest <- gen_records (i + 1) dates' ;;
      ret (r :: rest)
  end.

(** The script up to [records]: seed, draw the dates, sort them, build one
    record per date. *)
Definition generate : M (list Order) :=
  _ <- np_seed 42 ;;
  dates <- gen_dates N_ORDERS ;;
  let dates := sort Z.leb dates in
  gen_records 0 dates.

End Generator.

(** What the loop body establishes for the record of date [d]. *)
Definition record_ok (d : date) (r : Order) : Prop :=
  Date r = d
  /\ Year r = year d
  /\ In (Category r) (keys CATEGORIES)
  /\ In (Product r) (products (category_info (Category r)))
  /\ In (Region r) REGIONS
  /\ In (City r) (cities_of (Region r))
  /\ (0 <= Revenue r)%Q
  /\ (0 <= Profit r)%Q
  /\ Revenue r
     = round_nd 2 (UnitPrice r * inject_Z (Quantity r)
                   * (1 - inject_Z (Discount r) / 100))%Q
  /\ exists m : Q,
       (15 # 100 <= m)%Q /\ (m <= 40 # 100)%Q
       /\ Profit r = round_nd 2 (Revenue r * m)%Q.

(* ================================================================== *)
(** ** The generator: the file written *)

Definition newline : string := String (ascii_of_nat 10) EmptyString.

Fixpoint join (sep : string) (l : list string) : string :=
  match l with
  | [] => EmptyString
  | [x] => x
  | x :: l' => (x ++ sep ++ join sep l')%string
  end.

Definition csv_header : list string :=
  ["OrderID"; "Date"; "Month"; "Quarter"; "Year"; "Category"; "Product";
   "UnitPrice"; "Quantity"; "Discount"; "Revenue"; "Profit"; "Region"; "City";
   "Channel"; "PaymentMethod"; "Rating"; "Returned"]%string.

Definition csv_cells (r : Order) : list string :=
  [OrderID r; strftime_iso (Date r); Month r; Quarter r; str_int (Year r);
   Category r; Product r; repr_float (UnitPrice r); str_int (Quantity r);
   str_int (Discount r); repr_float (Revenue r); repr_float (Profit r);
   Region r; City r; Channel r; PaymentMethod r; repr_float (Rating r);
   str_int (Returned r)].

(** [pd.DataFrame(records).to_csv(path, index=False)]: the header line, then
    one line per record; no cell of this table needs quoting. *)
Definition to_csv (records : list Order) : string :=
  String.concat EmptyString
    (map (fun cells => (join "," cells ++ newline)%string)
         (csv_header :: map csv_cells records)).

(** Content of [sales_data.csv] after a run started with the global generator
    in state [s0]. *)
Definition sales_data_csv {R : NumpyRandom} (s0 : rng_state) : string :=
  to_csv (fst (generate s0)).

(** A small instance of the interface, a linear congruential generator, to
    run the generator on. *)
Definition lcg_next (s : Z) : Z := (1103515245 * s + 12345) mod 2147483648.

(** The high bits of the next state, the usable ones. *)
Definition lcg_bits (s : Z) : Z := lcg_next s / 65536.

#[export] Program Instance LCG : NumpyRandom := {|
  rng_state := Z;
  seeded := fun n => n mod 2147483648;
  randint := fun lo hi s =>
    (if lo <? hi then lo + lcg_bits s mod (hi - lo) else lo, lcg_next s);
  rand := fun s => (lcg_bits s mod 1000 # 1000, lcg_next s);
  uniform := fun lo hi s =>
    ((lo + (hi - lo) * (lcg_bits s mod 1000 # 1000))%Q, lcg_next s);
  choice_index := fun n _ s =>
    (Z.to_nat (lcg_bits s mod Z.of_nat n), lcg_next s)
|}.
Next Obligation.
  simpl. apply Z.ltb_lt in H as H'. rewrite H'.
  pose proof (Z.mod_pos_bound (lcg_bits s) (hi - lo)). lia.
Qed.
Next Obligation.
  simpl. pose proof (Z.mod_pos_bound (lcg_bits s) 1000 eq_refl).
  unfold Qle, Qlt. simpl. lia.
Qed.
Next Obligation.
  simpl.
  pose proof (Z.mod_pos_bound (lcg_bits s) 1000 eq_refl) as Hb.
  set (u := (lcg_bits s mod 1000 # 1000)%Q).
  assert (Hu : (0 <= u /\ u <= 1)%Q) by (unfold u, Qle; simpl; lia).
  destruct Hu as [Hu0 Hu1]. clearbody u. split; nra.
Qed.
Next Obligation.
  simpl.
  pose proof (Z.mod_pos_bound (lcg_bits s) (Z.of_nat n)). lia.
Qed.

(* ================================================================== *)
(** ** Sample data *)

(** A row as [load_data] gives it, for the examples. *)
Definition sample_row (cat : string) (t : date) (rev : Q) (pay : string)
  (returned : Z) : Row :=
  load_row (mkOrder "ORD-10000" t (strftime_month t) (quarter_label t)
                    (year t) cat "Item" rev 1 0 rev (rev / 4) "North" "Delhi"
                    "Website" pay 4 returned).

(** The three orders of the specification's example. *)
Definition example_table : DataFrame :=
  [sample_row "Electronics" (datetime 2022 3 7) 100 "UPI" 0;
   sample_row "Clothing" (datetime 2022 8 20) 50 "COD" 0;
   sample_row "Electronics" (datetime 2023 6 9) 200 "COD" 1].

Definition all_selected (years : list Z) : FilterSpec :=
  mkFilter years ["Electronics"; "Clothing"]%string ["North"]%string
           ["Website"]%string.


(* ================================================================== *)
(** ** Sidebar: options, defaults, counters *)

(** [Series.unique()] on an integer column. *)
Fixpoint unique_int (l : list Z) : list Z :=
  match l with
  | [] => []
  | x :: l' => x :: remove Z.eq_dec x (unique_int l')
  end.

(** [sorted(df[col].unique())], the options of each multiselect. *)
Definition years (df : DataFrame) : list Z :=
  sort Z.leb (unique_int (column Year df)).
Definition categories (df : DataFrame) : list string :=
  sort String.leb (unique (column Category df)).
Definition regions (df : DataFrame) : list string :=
  sort String.leb (unique (column Region df)).
Definition channels (df : DataFrame) : list string :=
  sort String.leb (unique (column Channel df)).

(** The selection a fresh page starts with: every multiselect has
    [default=] its own options. *)
Definition default_selection (df : DataFrame) : FilterSpec :=
  mkFilter (years df) (categories df) (regions df) (channels df).

(** [Series.nunique()]. *)
Definition nunique (col : list string) : Z := count (unique col).

(** The three counters under the filters: orders, cities, products. *)
Definition sidebar_counts (fdf : DataFrame) : Z * Z * Z :=
  (count fdf, nunique (column City fdf), nunique (column Product fdf)).

(* ================================================================== *)
(** ** The remaining grouped views *)

(** [monthly]: revenue, profit and orders per month period, by month. *)
Record MonthlyRow := mkMonthlyRow {
  mon_MonthNum : string;
  mon_Revenue : Q;
  mon_Profit : Q;
  mon_Orders : Z
}.

Definition monthly (fdf : DataFrame) : list MonthlyRow :=
  sort (fun a b => String.leb (mon_MonthNum a) (mon_MonthNum b))
       (map (fun g => mkMonthlyRow (fst g)
                        (series_sum (column Revenue (snd g)))
                        (series_sum (column Profit (snd g)))
                        (count (column OrderID (snd g))))
            (groupby MonthNum fdf)).

(** [region_data]. *)
Record RegionRow := mkRegionRow {
  reg_Region : string;
  reg_Revenue : Q;
  reg_Orders : Z;
  reg_Profit : Q
}.

Definition region_data (fdf : DataFrame) : list RegionRow :=
  map (fun g => mkRegionRow (fst g)
                  (series_sum (column Revenue (snd g)))
                  (count (column OrderID (snd g)))
                  (series_sum (column Profit (snd g))))
      (groupby Region fdf).

(** [region_data.sort_values('Revenue', ascending=True)], the frame
    plotted. *)
Definition region_sorted (fdf : DataFrame) : list RegionRow :=
  sort (fun a b => Qle_bool (reg_Revenue a) (reg_Revenue b)) (region_data fdf).

(** [channel_data]. *)
Record ChannelRow := mkChannelRow {
  chn_Channel : string;
  chn_Revenue : Q;
  chn_Orders : Z;
  chn_AvgOrder : option Q
}.

Definition channel_data (fdf : DataFrame) : list ChannelRow :=
  map (fun g => mkChannelRow (fst g)
                  (series_sum (column Revenue (snd g)))
                  (count (column OrderID (snd g)))
                  (series_mean (column Revenue (snd g))))
      (groupby Channel fdf).

(** [channel_data.sort_values('Revenue', ascending=False)]. *)
Definition channel_sorted (fdf : DataFrame) : list ChannelRow :=
  sort (fun a b => Qle_bool (chn_Revenue b) (chn_Revenue a)) (channel_data fdf).

(** [Series.nlargest(n)]: the [n] largest entries, largest first, the earlier
    entry first among equal ones. *)
Definition nlargest (n : nat) (s : list (string * Q)) : list (string * Q) :=
  firstn n (sort (fun a b => Qle_bool (snd b) (snd a)) s).

(** [fdf.groupby('Product')['Revenue'].sum()]. *)
Definition product_revenue (fdf : DataFrame) : list (string * Q) :=
  map (fun g => (fst g, series_sum (column Revenue (snd g))))
      (groupby Product fdf).

Definition top_products (fdf : DataFrame) : list (string * Q) :=
  nlargest 10 (product_revenue fdf).

(** [top_products.sort_values('Revenue', ascending=True)], the frame
    plotted. *)
Definition top_products_sorted (fdf : DataFrame) : list (string * Q) :=
  sort (fun a b => Qle_bool (snd a) (snd b)) (top_products fdf).

(** [Series.value_counts()]: each distinct value with the number of its
    occurrences, most frequent first. *)
Definition value_counts (col : list string) : list (string * Z) :=
  sort (fun a b => Z.leb (snd b) (snd a))
       (map (fun v => (v, count (filter (String.eqb v) col))) (unique col)).

(** [pay], with columns [Method] and [Count]. *)
Definition pay (fdf : DataFrame) : list (string * Z) :=
  value_counts (column PaymentMethod fdf).

(** [ratings]: mean rating per category, to two decimals (the mean and its
    rounding taken on exact rationals). *)
Definition ratings (fdf : DataFrame) : list (string * option Q) :=
  map (fun g => (fst g,
                 option_map (round_nd 2) (series_mean (column Rating (snd g)))))
      (groupby Category fdf).

(** Ascending order on means, missing values last. *)
Definition rate_leb (a b : option Q) : bool :=
  match a, b with
  | Some x, Some y => Qle_bool x y
  | _, None => true
  | None, Some _ => false
  end.

(** [ratings.sort_values('Rating', ascending=True)]. *)
Definition ratings_sorted (fdf : DataFrame) : list (string * option Q) :=
  sort (fun a b => rate_leb (snd a) (snd b)) (ratings fdf).

(** Group-by on a key of any type with a decidable equality [eqb] and an
    order [leb]: integer keys ([Discount]) and key pairs
    ([['Year', 'Category']]). *)
Section GroupByKey.

Context {K : Type} (eqb leb : K -> K -> bool).

Fixpoint unique_by (l : list K) : list K :=
  match l with
  | [] => []
  | x :: l' => x :: filter (fun y => negb (eqb x y)) (unique_by l')
  end.

Definition group_keys_by (key : Row -> K) (df : DataFrame) : list K :=
  sort leb (unique_by (column key df)).

Definition groupby_by (key : Row -> K) (df : DataFrame)
  : list (K * DataFrame) :=
  map (fun k => (k, filter (fun r => eqb (key r) k) df))
      (group_keys_by key df).

End GroupByKey.

(** [disc]: revenue, orders and mean revenue per discount level. *)
Record DiscRow := mkDiscRow {
  dsc_Discount : Z;
  dsc_Revenue : Q;
  dsc_Orders : Z;
  dsc_AvgRevenue : option Q
}.

Definition disc (fdf : DataFrame) : list DiscRow :=
  map (fun g => mkDiscRow (fst g)
                  (series_sum (column Revenue (snd g)))
                  (count (column OrderID (snd g)))
                  (series_mean (column Revenue (snd g))))
      (groupby_by Z.eqb Z.leb (fun r : Row => Discount r) fdf).

(** Equality and lexicographic order on [(Year, Category)] keys. *)
Definition year_cat_eqb (a b : Z * string) : bool :=
  Z.eqb (fst a) (fst b) && String.eqb (snd a) (snd b).

Definition year_cat_leb (a b : Z * string) : bool :=
  if Z.eqb (fst a) (fst b) then String.leb (snd a) (snd b)
  else Z.leb (fst a) (fst b).

(** [yoy]: revenue per year and category. *)
Definition yoy (fdf : DataFrame) : list ((Z * string) * Q) :=
  map (fun g => (fst g, series_sum (column Revenue (snd g))))
      (groupby_by year_cat_eqb year_cat_leb
                  (fun r : Row => (Year r, Category r)) fdf).

(** [DataFrame.head(n)]. *)
Definition head {A : Type} (n : nat) (df : list A) : list A := firstn n df.

(** What the raw-data table comes to: rows on the page, or the [KeyError]
    of the column selection. *)
Inductive table_outcome :=
| Shown (rows : DataFrame)
| KeyError.

(** The raw-data table: the search result cut to [n_rows].  With a search
    term and no row in the filtered table, [apply(..., axis=1)] has no row to
    call the lambda on and returns an empty float Series, which is not a
    boolean mask: [display_df[mask]] then selects the columns it lists, none,
    and the selection of the thirteen displayed columns raises [KeyError].
    [None] stands for a term outside the literal search modelled by
    [str_contains]. *)
Definition raw_table (float_str : Q -> string) (fdf : DataFrame)
  (search : string) (n_rows : nat) : option table_outcome :=
  match search, fdf with
  | EmptyString, _ => Some (Shown (head n_rows fdf))
  | _, [] => if is_literal search then Some KeyError else None
  | _, _ :: _ =>
      option_map (fun d => Shown (head n_rows d))
                 (display_df float_str fdf search)
  end.

(** Sum of the counts of the day-of-week view, a missing count being none. *)
Definition dow_total_orders (rows : list DowRow) : Z :=
  int_sum (map (fun row => match dow_Orders row with
                           | Some n => n
                           | None => 0
                           end) rows).

(** Sum of the revenues of the day-of-week view, a missing one being none. *)
Definition dow_total_revenue (rows : list DowRow) : Q :=
  series_sum (map (fun row => match dow_Revenue row with
                              | Some q => q
                              | None => 0%Q
                              end) rows).

(* ================================================================== *)
(** ** The generator: everything the loop body draws *)

(** What the body of the second loop establishes for the record of date [d],
    field by field. *)
Definition record_drawn (d : date) (r : Order) : Prop :=
  Date r = d
  /\ Month r = strftime_month d
  /\ Quarter r = quarter_label d
  /\ Year r = year d
  /\ (exists i : Z, OrderID r = ("ORD-" ++ str_int (10000 + i))%string)
  /\ In (Category r) (keys CATEGORIES)
  /\ In (Product r) (products (category_info (Category r)))
  /\ (exists u : Q,
        UnitPrice r = round_nd 2 u
        /\ (inject_Z (fst (price_range (category_info (Category r)))) <= u)%Q
        /\ (u <= inject_Z (snd (price_range (category_info (Category r)))))%Q)
  /\ In (Quantity r) [1; 1; 1; 2; 2; 3]
  /\ In (Discount r) [0; 5; 10; 15; 20; 25]
  /\ Revenue r
     = round_nd 2 (UnitPrice r * inject_Z (Quantity r)
                   * (1 - inject_Z (Discount r) / 100))%Q
  /\ (exists m : Q,
        (15 # 100 <= m)%Q /\ (m <= 40 # 100)%Q
        /\ Profit r = round_nd 2 (Revenue r * m)%Q)
  /\ In (Region r) REGIONS
  /\ In (City r) (cities_of (Region r))
  /\ In (Channel r) CHANNELS
  /\ In (PaymentMethod r) PAYMENT
  /\ (exists x : Q,
        In x [3 # 1; 35 # 10; 4 # 1; 45 # 10; 5 # 1]%Q
        /\ Rating r = round_nd 1 x)
  /\ In (Returned r) [0; 1].

(** Every city and every product of the reference data. *)
Definition all_cities : list string := List.concat (map snd CITIES).
Definition all_products : list string :=
  nodup string_dec (List.concat (map (fun e => products (snd e)) CATEGORIES)).

(** The quarter labels of the generation window. *)
Definition window_quarters : list string :=
  ["Q1 2022"; "Q2 2022"; "Q3 2022"; "Q4 2022";
   "Q1 2023"; "Q2 2023"; "Q3 2023"; "Q4 2023";
   "Q1 2024"; "Q2 2024"; "Q3 2024"; "Q4 2024"]%string.

(** Number of occurrences of a character in a text. *)
Fixpoint count_char (c : ascii) (s : string) : nat :=
  match s with
  | EmptyString => O
  | String a s' => ((if Ascii.eqb a c then 1 else 0) + count_char c s')%nat
  end.

(** A cell that [to_csv] writes as it is: no comma, no double quote, no line
    break. *)
Definition plain_cell (s : string) : Prop :=
  count_char "," s = O /\ count_char (ascii_of_nat 34) s = O
  /\ count_char (ascii_of_nat 10) s = O /\ count_char (ascii_of_nat 13) s = O.

(** The calendar facts checked on one day of the generation window: the
    year is one of the three of the window, the month is a month, the day
    number is the day number of its own calendar date, and the quarter label
    is one of the twelve of the window. *)
Definition window_check (t : date) : bool :=
  existsb (Z.eqb (year t)) [2022; 2023; 2024]
  && (1 <=? month t) && (month t <=? 12)
  && (datetime (year t) (month t) (day t) =? t)
  && existsb (String.eqb (quarter_label t)) window_quarters.

(** [plain_cell] as a test. *)
Definition plain_cellb (s : string) : bool :=
  Nat.eqb (count_char "," s) 0 && Nat.eqb (count_char (ascii_of_nat 34) s) 0
  && Nat.eqb (count_char (ascii_of_nat 10) s) 0
  && Nat.eqb (count_char (ascii_of_nat 13) s) 0.

(** Every product of the reference data, listed category by category. *)
Definition catalogue_products : list string :=
  List.concat (map (fun e => products (snd e)) CATEGORIES).

(** The facts about the derived columns checked on one day of the
    generation window: the ISO week number lies between 1 and 53 and the
    month period has the seven characters of [YYYY-MM]. *)
Definition window_load_check (t : date) : bool :=
  (1 <=? iso_week t) && (iso_week t <=? 53)
  && Nat.eqb (String.length (month_period t)) 7.
(* ================================================================== *)
(** * Properties *)

(** ** Filter *)

Lemma fdf_filter (df : DataFrame) (s : FilterSpec) :
  fdf df s = filter (row_passes s) df.
Proof.
  unfold fdf, column, isin, series_and.
  induction df as [|r df IH]; simpl; [reflexivity|].
  unfold row_passes at 1.
  destruct (existsb (Z.eqb (Year r)) (sel_years s)
            && existsb (String.eqb (Category r)) (sel_cats s)
            && existsb (String.eqb (Region r)) (sel_regions s)
            && existsb (String.eqb (Channel r)) (sel_channels s));
    rewrite IH; reflexivity.
Qed.

Lemma existsb_Zeqb_In (x : Z) (l : list Z) :
  existsb (Z.eqb x) l = true <-> In x l.
Proof.
  rewrite existsb_exists. split.
  - intros [y [Hy He]]. apply Z.eqb_eq in He. now subst.
  - intros H. exists x. split; [assumption | apply Z.eqb_refl].
Qed.

Lemma existsb_eqb_In (x : string) (l : list string) :
  existsb (String.eqb x) l = true <-> In x l.
Proof.
  rewrite existsb_exists. split.
  - intros [y [Hy He]]. apply String.eqb_eq in He. now subst.
  - intros H. exists x. split; [assumption | apply String.eqb_refl].
Qed.

Lemma row_passes_iff (s : FilterSpec) (r : Row) :
  row_passes s r = true <->
  In (Year r) (sel_years s) /\ In (Category r) (sel_cats s) /\
  In (Region r) (sel_regions s) /\ In (Channel r) (sel_channels s).
Proof.
  unfold row_passes. rewrite !andb_true_iff, existsb_Zeqb_In, !existsb_eqb_In.
  tauto.
Qed.

Lemma filter_subseq {A : Type} (p : A -> bool) (l : list A) :
  subseq (filter p l) l.
Proof.
  induction l as [|x l IH]; simpl; [constructor|].
  destruct (p x); now constructor.
Qed.

Lemma filter_idem {A : Type} (p : A -> bool) (l : list A) :
  filter p (filter p l) = filter p l.
Proof.
  induction l as [|x l IH]; simpl; [reflexivity|].
  destruct (p x) eqn:E; simpl; [rewrite E, IH|]; auto.
Qed.

Lemma filter_length_le {A : Type} (p : A -> bool) (l : list A) :
  (List.length (filter p l) <= List.length l)%nat.
Proof.
  induction l as [|x l IH]; simpl; [lia|].
  destruct (p x); simpl; lia.
Qed.

Lemma filter_none {A : Type} (p : A -> bool) (l : list A) :
  (forall x, p x = false) -> filter p l = [].
Proof.
  intros H. induction l as [|x l IH]; simpl; [reflexivity|].
  now rewrite H.
Qed.

(** C1. The filtered table is exactly the rows of the source, in place, whose
    Year, Category, Region and Channel each belong to the selected values;
    it has at most as many rows as the source, and an empty selection in any
    one of the four dimensions leaves no row. *)
Theorem fdf_exact (df : DataFrame) (s : FilterSpec) :
  fdf df s = filter (row_passes s) df
  /\ (forall r : Row,
        row_passes s r = true <->
        In (Year r) (sel_years s) /\ In (Category r) (sel_cats s) /\
        In (Region r) (sel_regions s) /\ In (Channel r) (sel_channels s))
  /\ (forall r : Row,
        In r (fdf df s) <->
        In r df /\ In (Year r) (sel_years s) /\ In (Category r) (sel_cats s) /\
        In (Region r) (sel_regions s) /\ In (Channel r) (sel_channels s))
  /\ (List.length (fdf df s) <= List.length df)%nat
  /\ (forall cs rs chs, fdf df (mkFilter [] cs rs chs) = [])
  /\ (forall ys rs chs, fdf df (mkFilter ys [] rs chs) = [])
  /\ (forall ys cs chs, fdf df (mkFilter ys cs [] chs) = [])
  /\ (forall ys cs rs, fdf df (mkFilter ys cs rs []) = []).
Proof.
  split; [apply fdf_filter|].
  split; [apply row_passes_iff|].
  split.
  { intros r. rewrite fdf_filter, filter_In, row_passes_iff. tauto. }
  split; [rewrite fdf_filter; apply filter_length_le|].
  repeat split; intros; rewrite fdf_filter; apply filter_none; intros r;
    unfold row_passes; simpl; rewrite ?andb_false_r; reflexivity.
Qed.

(** C10. Filtering a filtered table again with the same selection changes
    nothing, and the surviving rows keep the relative order they had in the
    source. *)
Theorem fdf_idempotent (df : DataFrame) (s : FilterSpec) :
  fdf (fdf df s) s = fdf df s /\ subseq (fdf df s) df.
Proof.
  rewrite !fdf_filter. split; [apply filter_idem | apply filter_subseq].
Qed.

(** ** KPI cards *)

Lemma profit_margin_guarded (t : DataFrame) :
  (total_rev t <= 0)%Q -> profit_margin t = 0%Q.
Proof.
  intros H. unfold profit_margin, Qlt_bool.
  apply Qle_bool_iff in H. now rewrite H.
Qed.

Lemma profit_margin_positive (t : DataFrame) :
  (0 < total_rev t)%Q ->
  profit_margin t = (total_profit t / total_rev t * 100)%Q.
Proof.
  intros H. unfold profit_margin, Qlt_bool.
  destruct (Qle_bool (total_rev t) 0) eqn:E; [|reflexivity].
  apply Qle_bool_iff in E. exfalso. apply (Qlt_not_le _ _ H E).
Qed.

Lemma kpi_empty_table :
  total_rev [] = 0%Q /\ total_orders [] = 0 /\ profit_margin [] = 0%Q.
Proof. repeat split. Qed.

(** C2. On the empty filtered table the profit margin is 0, by its guard,
    but the average order value is the mean of an empty column, which is
    NaN and not 0: the average has no guard. *)
Theorem avg_order_empty_is_nan :
  avg_order [] = None /\ avg_order [] <> Some 0%Q /\ profit_margin [] = 0%Q.
Proof. repeat split. discriminate. Qed.

(** ** Sorting *)

Section Sorting.

Context {A : Type} (leb : A -> A -> bool).

Lemma insert_sorted_perm (x : A) (l : list A) :
  Permutation (insert_sorted leb x l) (x :: l).
Proof.
  induction l as [|y l IH]; simpl; [reflexivity|].
  destruct (leb x y); [reflexivity|].
  rewrite IH. apply perm_swap.
Qed.

Lemma sort_perm (l : list A) : Permutation (sort leb l) l.
Proof.
  induction l as [|x l IH]; simpl; [reflexivity|].
  rewrite insert_sorted_perm. now constructor.
Qed.

Hypothesis leb_total : forall a b, leb a b = true \/ leb b a = true.

Lemma insert_sorted_sorted (x : A) (l : list A) :
  Sorted (fun a b => leb a b = true) l ->
  Sorted (fun a b => leb a b = true) (insert_sorted leb x l).
Proof.
  induction l as [|y l IH]; simpl; intros Hs.
  - repeat constructor.
  - destruct (leb x y) eqn:E.
    + constructor; [assumption | constructor; assumption].
    + inversion Hs as [|? ? Hs' Hhd]; subst.
      constructor; [apply IH; assumption|].
      destruct l as [|z l]; simpl.
      * constructor. destruct (leb_total x y); congruence.
      * destruct (leb x z); constructor.
        -- destruct (leb_total x y); congruence.
        -- inversion Hhd; assumption.
Qed.

Lemma sort_sorted (l : list A) :
  Sorted (fun a b => leb a b = true) (sort leb l).
Proof.
  induction l as [|x l IH]; simpl; [constructor|].
  apply insert_sorted_sorted, IH.
Qed.

End Sorting.

(** ** Group-by *)

Lemma unique_In (x : string) (l : list string) : In x (unique l) <-> In x l.
Proof.
  induction l as [|y l IH]; simpl; [tauto|].
  split.
  - intros [H|H]; [now left|]. apply in_remove in H. right. tauto.
  - intros [H|H]; [now left|].
    destruct (string_dec y x) as [E|E]; [now left|].
    right. apply in_in_remove; [congruence | tauto].
Qed.

Lemma remove_NoDup (x : string) (l : list string) :
  NoDup l -> NoDup (remove string_dec x l).
Proof.
  induction 1 as [|y l Hy Hl IH]; simpl; [constructor|].
  destruct (string_dec x y); [assumption|].
  constructor; [|assumption].
  intros H. apply in_remove in H. tauto.
Qed.

Lemma unique_NoDup (l : list string) : NoDup (unique l).
Proof.
  induction l as [|y l IH]; simpl; constructor.
  - apply remove_In.
  - now apply remove_NoDup.
Qed.

Lemma group_keys_In (key : Row -> string) (df : DataFrame) (k : string) :
  In k (group_keys key df) <-> In k (column key df).
Proof.
  unfold group_keys. rewrite <- (unique_In k (column key df)).
  split; apply Permutation_in; [|symmetry]; apply sort_perm.
Qed.

Lemma group_keys_NoDup (key : Row -> string) (df : DataFrame) :
  NoDup (group_keys key df).
Proof.
  unfold group_keys.
  apply (Permutation_NoDup (l := unique (column key df)));
    [symmetry; apply sort_perm | apply unique_NoDup].
Qed.

Lemma groupby_keys (key : Row -> string) (df : DataFrame) :
  map fst (groupby key df) = group_keys key df.
Proof.
  unfold groupby. rewrite map_map. simpl. apply map_id.
Qed.

(** ** Category breakdown *)

Lemma series_sum_perm (l l' : list Q) :
  Permutation l l' -> (series_sum l == series_sum l')%Q.
Proof.
  induction 1; simpl.
  - reflexivity.
  - now rewrite IHPermutation.
  - ring.
  - now rewrite IHPermutation1.
Qed.

(** Summing, over distinct keys, the one key that matches picks the value
    once. *)
Lemma sum_over_keys_pick (keys : list string) (k : string) (v : Q) :
  NoDup keys -> In k keys ->
  (series_sum (map (fun k' => if String.eqb k k' then v else 0%Q) keys) == v)%Q.
Proof.
  induction 1 as [|k0 keys Hk0 Hnd IH]; simpl; [tauto|].
  intros [E|Hin].
  - subst k0. rewrite String.eqb_refl.
    assert (Hz : forall l, ~ In k l ->
      (series_sum (map (fun k' => if String.eqb k k' then v else 0%Q) l) == 0)%Q).
    { induction l as [|y l IHl]; simpl; intros Hni; [reflexivity|].
      destruct (String.eqb_spec k y) as [->|_]; [exfalso; apply Hni; now left|].
      rewrite IHl; [ring | tauto]. }
    rewrite (Hz keys Hk0). ring.
  - destruct (String.eqb_spec k k0) as [->|_]; [contradiction|].
    rewrite (IH Hin). ring.
Qed.

(** Grouping partitions the rows: the per-group sums of a measure add up to
    the sum over the whole table. *)
Lemma groupby_sum (key : Row -> string) (f : Row -> Q) (keys : list string)
  (df : DataFrame) :
  NoDup keys -> (forall r, In r df -> In (key r) keys) ->
  (series_sum
     (map (fun k =>
             series_sum (column f (filter (fun r => String.eqb (key r) k) df)))
          keys)
   == series_sum (column f df))%Q.
Proof.
  intros Hnd. induction df as [|r df IH]; intros Hcov.
  - simpl. clear Hnd Hcov.
    induction keys as [|k keys IHk]; simpl; [reflexivity|].
    rewrite IHk. ring.
  - assert (Hsplit : forall ks,
      (series_sum
         (map (fun k =>
                 series_sum
                   (column f (filter (fun r' => String.eqb (key r') k) (r :: df))))
              ks)
       == series_sum (map (fun k => if String.eqb (key r) k then f r else 0%Q) ks)
          + series_sum
              (map (fun k =>
                      series_sum
                        (column f (filter (fun r' => String.eqb (key r') k) df)))
                   ks))%Q).
    { induction ks as [|k ks IHk]; simpl; [ring|].
      rewrite IHk. destruct (String.eqb (key r) k); simpl; ring. }
    rewrite Hsplit, IH by (intros; apply Hcov; now right).
    rewrite (sum_over_keys_pick keys (key r) (f r) Hnd)
      by (apply Hcov; now left).
    simpl. ring.
Qed.

(** C5. The revenues of the category breakdown add up to the total revenue of
    the filtered table. *)
Theorem cat_rev_sums_to_total (t : DataFrame) :
  (series_sum (map snd (cat_rev t)) == total_rev t)%Q.
Proof.
  unfold cat_rev, total_rev.
  rewrite (series_sum_perm _ _ (Permutation_map snd (sort_perm _ _))).
  unfold groupby. rewrite !map_map. simpl.
  apply groupby_sum.
  - apply group_keys_NoDup.
  - intros r Hr. apply group_keys_In. unfold column.
    apply in_map_iff. exists r. split; [reflexivity | assumption].
Qed.

(** ** Day-of-week view *)

Lemma existsb_keys_column (key : Row -> string) (df : DataFrame) (l : string) :
  existsb (String.eqb l) (group_keys key df)
  = existsb (String.eqb l) (column key df).
Proof.
  apply eq_true_iff_eq. rewrite !existsb_eqb_In. apply group_keys_In.
Qed.

Lemma find_by_key {V : Type} (h : string -> V) (keys : list string)
  (l : string) :
  find (fun e => String.eqb (fst e) l) (map (fun k => (k, h k)) keys)
  = if existsb (String.eqb l) keys then Some (l, h l) else None.
Proof.
  induction keys as [|k keys IH]; simpl; [reflexivity|].
  rewrite (String.eqb_sym l k).
  destruct (String.eqb_spec k l) as [->|_]; simpl; [reflexivity | exact IH].
Qed.

(** C4. Whatever the filtered table holds, the day-of-week view has one row
    per day name, seven rows from Monday to Sunday; a day with orders carries
    their count and revenue, a day without any carries missing measures and
    is still there. *)
Theorem dow_seven_rows (t : DataFrame) :
  map dow_DayOfWeek (dow t) = dow_order
  /\ List.length (dow t) = 7%nat
  /\ dow t = map (dow_row t) dow_order.
Proof.
  assert (H : dow t = map (dow_row t) dow_order).
  { unfold dow, reindex. apply map_ext. intros d.
    unfold groupby. rewrite map_map. simpl.
    rewrite (find_by_key
               (fun k =>
                  (count (column OrderID
                            (filter (fun r => String.eqb (DayOfWeek r) k) t)),
                   series_sum
                     (column Revenue
                        (filter (fun r => String.eqb (DayOfWeek r) k) t))))).
    rewrite existsb_keys_column. unfold dow_row.
    destruct (existsb (String.eqb d) (column DayOfWeek t)); simpl;
      [|reflexivity].
    unfold count, column. now rewrite !length_map. }
  rewrite H. split; [|split; reflexivity].
  rewrite map_map. unfold dow_order. simpl.
  unfold dow_row.
  repeat match goal with
         | |- context [if ?b then _ else _] => destruct b
         end; reflexivity.
Qed.

(** A day absent from the filtered data keeps its row, with both measures
    missing. *)
Lemma dow_absent_day (t : DataFrame) (d : string) :
  In d dow_order -> ~ In d (column DayOfWeek t) ->
  In (mkDowRow d None None) (dow t).
Proof.
  intros Hd Hn. destruct (dow_seven_rows t) as (_ & _ & ->).
  apply in_map_iff. exists d. split; [|assumption].
  unfold dow_row.
  destruct (existsb (String.eqb d) (column DayOfWeek t)) eqn:E;
    [|reflexivity].
  apply existsb_eqb_In in E. contradiction.
Qed.

(** ** Return-rate view *)

Lemma group_nonempty (key : Row -> string) (t : DataFrame) (k : string) :
  In k (column key t) ->
  1 <= count (filter (fun r => String.eqb (key r) k) t).
Proof.
  unfold column, count. intros H. apply in_map_iff in H as (r & Hk & Hr).
  assert (Hin : In r (filter (fun r => String.eqb (key r) k) t)).
  { apply filter_In. split; [assumption|]. subst k. apply String.eqb_refl. }
  destruct (filter (fun r => String.eqb (key r) k) t); [contradiction|].
  simpl. lia.
Qed.





Lemma wrap64_small (z : Z) : - 2 ^ 63 <= z < 2 ^ 63 -> wrap64 z = z.
Proof.
  intros H. unfold wrap64. rewrite Z.mod_small; lia.
Qed.

(** On a column of 0/1 flags shorter than 2^63 the [int64] sum is the number
    of flags set: nothing wraps. *)
Lemma int64_sum_flags (col : list Z) :
  Forall (fun x => 0 <= x <= 1) col ->
  Z.of_nat (List.length col) < 2 ^ 63 ->
  int64_sum col = int_sum col /\ 0 <= int_sum col <= Z.of_nat (List.length col).
Proof.
  induction 1 as [|x col Hx _ IH]; intros Hlen; [simpl; lia|].
  simpl List.length in Hlen. rewrite Nat2Z.inj_succ in Hlen.
  destruct IH as [IH Hb]; [lia|].
  simpl List.length. rewrite Nat2Z.inj_succ.
  simpl int64_sum. simpl int_sum. rewrite IH.
  rewrite wrap64_small by lia. lia.
Qed.



(** The rate of 23 returns in 80 orders: 23/80 x 100 is 28.75 exactly, but
    its double lies just below, so the code's rate is the double 28.7 and
    not 28.8; 1 return in 2 orders gives 50.0, none gives 0.0. *)
Example return_rate_values :
  value_of (return_rate 23 80)
  = value_of (PrimFloat.div (double_of_int64 287) (double_of_int64 10))
  /\ value_of (return_rate 23 80)
     <> value_of (PrimFloat.div (double_of_int64 288) (double_of_int64 10))
  /\ value_of (return_rate 1 2) = Finite 50
  /\ value_of (return_rate 0 7) = Finite 0
  /\ value_of (return_rate 0 0) = NaN.
Proof.
  repeat split; try (vm_compute; reflexivity).
  vm_compute. discriminate.
Qed.

(** ** Raw-data search *)

Lemma lower_app (a b : string) :
  lower (a ++ b) = (lower a ++ lower b)%string.
Proof.
  induction a as [|c a IH]; simpl; [reflexivity | now rewrite IH].
Qed.

(** A split of the lowered text comes from a split of the text. *)
Lemma lower_split (a b s : string) :
  lower s = (a ++ b)%string ->
  exists a' b', s = (a' ++ b')%string /\ lower a' = a /\ lower b' = b.
Proof.
  revert s. induction a as [|c a IH]; simpl; intros s H.
  - exists EmptyString, s. auto.
  - destruct s as [|d s]; [discriminate|]. simpl in H.
    injection H as Hc Hs. destruct (IH s Hs) as (a' & b' & -> & Ha & Hb).
    exists (String d a'), b'. simpl. rewrite Ha, Hc. auto.
Qed.

Lemma is_prefix_iff (p s : string) :
  is_prefix p s = true <-> exists post, s = (p ++ post)%string.
Proof.
  revert s. induction p as [|a p IH]; simpl; intros s.
  - split; [intros _; now exists s | reflexivity].
  - destruct s as [|b s].
    + split; [discriminate | intros [post H]; discriminate].
    + rewrite andb_true_iff, IH. split.
      * intros [E [post ->]]. apply Ascii.eqb_eq in E. subst. now exists post.
      * intros [post H]. injection H as -> ->.
        split; [apply Ascii.eqb_refl | now exists post].
Qed.

Lemma is_substring_iff (p s : string) :
  is_substring p s = true <-> exists pre post, s = (pre ++ p ++ post)%string.
Proof.
  induction s as [|b s IH].
  - simpl. rewrite orb_false_r, is_prefix_iff. split.
    + intros [post H]. now exists EmptyString, post.
    + intros (pre & post & H). destruct pre; [now exists post | discriminate].
  - cbn [is_substring]. rewrite orb_true_iff, is_prefix_iff, IH. split.
    + intros [[post H]|(pre & post & H)].
      * now exists EmptyString, post.
      * exists (String b pre), post. simpl. now rewrite H.
    + intros (pre & post & H). destruct pre as [|c pre].
      * left. now exists post.
      * right. injection H as _ H. now exists pre, post.
Qed.

(** The boolean test on lowered text decides containment, letter case
    aside. *)
Lemma contains_ci_reflect (term cell : string) :
  is_substring (lower term) (lower cell) = true <-> contains_ci term cell.
Proof.
  rewrite is_substring_iff. unfold contains_ci. split.
  - intros (pre & post & H).
    apply lower_split in H as (pre' & rest & -> & _ & Hrest).
    apply lower_split in Hrest as (mid & post' & -> & Hmid & _).
    now exists pre', mid, post'.
  - intros (pre & mid & post & -> & Hmid).
    exists (lower pre), (lower post). now rewrite !lower_app, Hmid.
Qed.

Lemma sequence_map_Some {A B : Type} (f : A -> B) (l : list A) :
  sequence (map (fun x => Some (f x)) l) = Some (map f l).
Proof.
  induction l as [|x l IH]; simpl; [reflexivity | now rewrite IH].
Qed.

Lemma boolean_index_map {A : Type} (p : A -> bool) (l : list A) :
  boolean_index l (map p l) = filter p l.
Proof.
  induction l as [|x l IH]; simpl; [reflexivity|].
  destruct (p x); now rewrite IH.
Qed.

Lemma existsb_id_map {A : Type} (g : A -> bool) (l : list A) :
  existsb (fun b : bool => b) (map g l) = existsb g l.
Proof.
  induction l as [|x l IH]; simpl; [reflexivity | now rewrite IH].
Qed.

Lemma is_substring_empty (s : string) : is_substring EmptyString s = true.
Proof. destruct s; reflexivity. Qed.

Section SearchProperties.

Variable float_str : Q -> string.

Lemma row_mask_literal (search : string) (r : Row) :
  is_literal search = true ->
  row_mask float_str search r = Some (literal_mask float_str search r).
Proof.
  intros H. unfold row_mask, literal_mask.
  rewrite (map_ext (str_contains search)
             (fun s => Some (is_substring (lower search) (lower s))))
    by (intros s; unfold str_contains; now rewrite H).
  rewrite sequence_map_Some. cbn [option_map]. now rewrite existsb_id_map.
Qed.

Lemma literal_mask_iff (search : string) (r : Row) :
  literal_mask float_str search r = true <->
  exists cell, In cell (astype_str float_str r) /\ contains_ci search cell.
Proof.
  unfold literal_mask. rewrite existsb_exists.
  split; intros (cell & Hin & H); exists cell; split; try assumption;
    now apply contains_ci_reflect.
Qed.

(** C6, as the code has it.  For a search term without regular-expression
    characters, the search keeps, in place, exactly the rows of the
    filtered table in which some cell of any column of the table, shown
    or not, contains the term, letter case aside; the empty term keeps
    every row. *)
Theorem search_literal_term (t : DataFrame) (search : string) :
  is_literal search = true ->
  display_df float_str t search = Some (filter (literal_mask float_str search) t)
  /\ (forall r, In r (filter (literal_mask float_str search) t) <->
                In r t /\ exists cell, In cell (astype_str float_str r)
                                       /\ contains_ci search cell)
  /\ display_df float_str t EmptyString = Some t.
Proof.
  intros H. split; [|split; [|reflexivity]].
  - destruct search as [|c s].
    + simpl. f_equal. symmetry.
      induction t as [|r t' IH]; [reflexivity|].
      cbn [filter]. unfold literal_mask at 1, astype_str.
      cbn [existsb lower]. rewrite is_substring_empty.
      cbn [orb]. now rewrite IH.
    + unfold display_df.
      rewrite (map_ext_in (row_mask float_str (String c s))
                 (fun r => Some (literal_mask float_str (String c s) r)))
        by (intros r _; now apply row_mask_literal).
      rewrite sequence_map_Some. simpl. now rewrite boolean_index_map.
  - intros r. rewrite filter_In, literal_mask_iff. tauto.
Qed.

End SearchProperties.

Lemma search_literal_term_witness :
  display_df repr_float
    [sample_row "Books" (datetime 2022 3 7) 40 "UPI" 0;
     sample_row "Sports" (datetime 2023 6 9) 90 "COD" 1] "upi"
  = Some [sample_row "Books" (datetime 2022 3 7) 40 "UPI" 0].
Proof.
  destruct (search_literal_term repr_float
              [sample_row "Books" (datetime 2022 3 7) 40 "UPI" 0;
               sample_row "Sports" (datetime 2023 6 9) 90 "COD" 1]
              "upi" eq_refl) as (H & _).
  rewrite H. reflexivity.
Defined.

(** C6, counterexample.  The payment method is not among the columns shown,
    yet searching for "upi" keeps the order paid by UPI: none of its
    displayed cells contains the term. *)
Lemma search_matches_hidden_column :
  let r := sample_row "Books" (datetime 2022 3 7) 40 "UPI" 0 in
  display_df repr_float [r] "upi" = Some [r]
  /\ ~ spec_search_includes repr_float "upi" r.
Proof.
  split; [reflexivity|].
  intros (cell & Hin & Hc). apply contains_ci_reflect in Hc.
  vm_compute in Hin.
  repeat (destruct Hin as [<-|Hin]; [vm_compute in Hc; discriminate|]).
  exact Hin.
Qed.

(** ** Rounding and text of numbers *)

Lemma rint_nonneg (x : Q) : (0 <= x)%Q -> 0 <= rint x.
Proof.
  intros H. unfold rint.
  assert (Hf : 0 <= Qfloor x).
  { change 0 with (Qfloor 0). now apply Qfloor_resp_le. }
  destruct (Qcompare (x - inject_Z (Qfloor x)) (1 # 2)); [|lia|lia].
  destruct (Z.even (Qfloor x)); lia.
Qed.

Lemma round_nd_nonneg (n : nat) (x : Q) :
  (0 <= x)%Q -> (0 <= round_nd n x)%Q.
Proof.
  intros H. unfold round_nd.
  assert (Hp : 0 < 10 ^ Z.of_nat n) by (apply Z.pow_pos_nonneg; lia).
  assert (Hq : (0 < inject_Z (10 ^ Z.of_nat n))%Q).
  { change 0%Q with (inject_Z 0). now rewrite <- Zlt_Qlt. }
  apply Qle_shift_div_l; [assumption|]. rewrite Qmult_0_l.
  change 0%Q with (inject_Z 0). rewrite <- Zle_Qle.
  apply rint_nonneg. apply Qmult_le_0_compat; [assumption|].
  now apply Qlt_le_weak.
Qed.

Lemma str_int_inj (a b : Z) : str_int a = str_int b -> a = b.
Proof.
  unfold str_int. intros H. apply DecimalZ.to_int_inj.
  assert (E : Some (Z.to_int a) = Some (Z.to_int b))
    by (rewrite <- !NilEmpty.isi; now rewrite H).
  now injection E.
Qed.

Lemma order_id_inj (x y : string) :
  ("ORD-" ++ x)%string = ("ORD-" ++ y)%string -> x = y.
Proof. simpl. intros H. now injection H. Qed.

Lemma Sorted_weaken {A : Type} (R R' : A -> A -> Prop) (l : list A) :
  (forall a b, R a b -> R' a b) -> Sorted R l -> Sorted R' l.
Proof.
  intros HR. induction 1 as [|a l Hs IH Hhd]; constructor; [assumption|].
  destruct Hhd; constructor. now apply HR.
Qed.

Lemma discount_factor_nonneg (d : Z) :
  0 <= d <= 100 -> (0 <= 1 - inject_Z d / 100)%Q.
Proof.
  intros H.
  assert (Hd : (inject_Z d / 100 <= 1)%Q).
  { apply Qle_shift_div_r; [reflexivity|]. rewrite Qmult_1_l.
    change 100%Q with (inject_Z 100). rewrite <- Zle_Qle. lia. }
  lra.
Qed.

(** ** The generator *)

Section GeneratorProperties.

Context {R : NumpyRandom}.

Lemma np_choice_In {A : Type} (dflt : A) (l : list A) (p : option (list Q))
  (s : rng_state) :
  l <> [] -> In (fst (np_choice dflt l p s)) l.
Proof.
  intros Hl. unfold np_choice.
  pose proof (choice_index_range (List.length l) p s) as Hi.
  destruct (choice_index (List.length l) p s) as [i s']. simpl in *.
  apply nth_In, Hi. destruct l; [congruence | simpl; lia].
Qed.

(** Name the value and the next state of the draw at the head of the
    goal, keeping what is known about the value. *)
Ltac draw_choice_with x H Hne :=
  match goal with
  | |- context [np_choice ?d ?l ?p ?s] =>
      pose proof (np_choice_In d l p s Hne) as H;
      destruct (np_choice d l p s) as [x ?]; cbn [fst] in H
  end.

Ltac draw_choice x H :=
  match goal with
  | |- context [np_choice ?d ?l ?p ?s] =>
      pose proof (np_choice_In d l p s ltac:(discriminate)) as H;
      destruct (np_choice d l p s) as [x ?]; cbn [fst] in H
  end.

Ltac draw_uniform x H :=
  match goal with
  | |- context [uniform ?lo ?hi ?s] =>
      pose proof (uniform_range lo hi s) as H;
      destruct (uniform lo hi s) as [x ?]; cbn [fst] in H
  end.

Lemma gen_record_ok (i : Z) (d : date) (s : rng_state) :
  record_ok d (fst (gen_record i d s))
  /\ OrderID (fst (gen_record i d s))
     = ("ORD-" ++ str_int (10000 + i))%string.
Proof.
  unfold gen_record, bind, ret.
  draw_choice category Hcat.
  assert (Hinfo : products (category_info category) <> []
                  /\ (0 <= fst (price_range (category_info category))
                      <= snd (price_range (category_info category)))).
  { simpl in Hcat.
    repeat (destruct Hcat as [<-|Hcat];
            [cbn; split; [discriminate | lia]|]).
    contradiction. }
  destruct Hinfo as (Hprods & Hlo & Hhi).
  draw_choice_with product Hprod Hprods.
  destruct (price_range (category_info category)) as [lo hi].
  cbn [fst snd] in Hlo, Hhi.
  draw_uniform u Hu.
  assert (Hu0 : (0 <= u)%Q).
  { destruct Hu as [Hu _]; [now rewrite <- Zle_Qle|].
    apply Qle_trans with (inject_Z lo); [|assumption].
    change 0%Q with (inject_Z 0). now rewrite <- Zle_Qle. }
  draw_choice qty Hqty. draw_choice discount Hdisc.
  draw_uniform m Hm.
  destruct Hm as [Hm1 Hm2]; [unfold Qle; simpl; lia|].
  draw_choice region Hreg.
  assert (Hcities : cities_of region <> []).
  { simpl in Hreg.
    repeat (destruct Hreg as [<-|Hreg]; [discriminate|]). contradiction. }
  draw_choice_with city Hcity Hcities.
  draw_choice channel Hchan. draw_choice payment Hpay.
  draw_choice rating Hrat. draw_choice returned Hret.
  cbn [fst].
  assert (Hrev : (0 <= round_nd 2
                        (round_nd 2 u * inject_Z qty
                         * (1 - inject_Z discount / 100)))%Q).
  { apply round_nd_nonneg. apply Qmult_le_0_compat.
    - apply Qmult_le_0_compat; [now apply round_nd_nonneg|].
      change 0%Q with (inject_Z 0). rewrite <- Zle_Qle. simpl in Hqty. lia.
    - apply discount_factor_nonneg. simpl in Hdisc. lia. }
  unfold record_ok. cbn [OrderID Date Year Category Product UnitPrice
                          Quantity Discount Revenue Profit Region City].
  repeat split; try assumption; try reflexivity.
  - apply round_nd_nonneg. apply Qmult_le_0_compat; [assumption|].
    apply Qle_trans with (15 # 100)%Q; [unfold Qle; simpl; lia | assumption].
  - exists m. repeat split; assumption.
Qed.

Lemma total_days_positive : 0 < total_days.
Proof. reflexivity. Qed.

Lemma window_end : add_days START_DATE total_days = END_DATE.
Proof. reflexivity. Qed.

(** A drawn date is the start plus an offset in [[0, total_days)]. *)
Lemma draw_date_in_window (s : rng_state) :
  START_DATE <= fst (draw_date s) <= END_DATE.
Proof.
  unfold draw_date, bind, ret.
  pose proof (randint_range 0 total_days s total_days_positive) as H.
  destruct (randint 0 total_days s) as [k s1]. cbn [fst] in *.
  rewrite <- window_end. unfold add_days. lia.
Qed.

Lemma gen_date_in_window (s : rng_state) :
  START_DATE <= fst (gen_date s) <= END_DATE.
Proof.
  unfold gen_date, bind, ret.
  pose proof (draw_date_in_window s) as Hd.
  destruct (draw_date s) as [d s1]. cbn [fst] in Hd.
  destruct (existsb (Z.eqb (month d)) [10; 11; 12]); [|exact Hd].
  destruct (rand s1) as [u s2].
  destruct (Qlt_bool u (3 # 10)); [apply draw_date_in_window | exact Hd].
Qed.

Lemma gen_dates_ok (n : nat) (s : rng_state) :
  List.length (fst (gen_dates n s)) = n
  /\ Forall (fun d => START_DATE <= d <= END_DATE) (fst (gen_dates n s)).
Proof.
  revert s. induction n as [|n IH]; intros s;
    [split; [reflexivity | constructor]|].
  cbn [gen_dates]. unfold bind, ret.
  pose proof (gen_date_in_window s) as Hd.
  destruct (gen_date s) as [d s1]. cbn [fst] in Hd.
  destruct (IH s1) as [Hlen Hall].
  destruct (gen_dates n s1) as [rest s2]. cbn [fst] in *.
  split; [simpl; now rewrite Hlen | now constructor].
Qed.

Lemma gen_records_ok (dates : list date) (i : Z) (s : rng_state) :
  Forall2 record_ok dates (fst (gen_records i dates s))
  /\ map OrderID (fst (gen_records i dates s))
     = map (fun k => ("ORD-" ++ str_int (10000 + (i + Z.of_nat k)))%string)
           (seq 0 (List.length dates)).
Proof.
  revert i s. induction dates as [|d dates IH]; intros i s.
  - split; [constructor | reflexivity].
  - cbn [gen_records]. unfold bind, ret.
    destruct (gen_record_ok i d s) as [Hok Hid].
    destruct (gen_record i d s) as [r s1]. cbn [fst] in Hok, Hid.
    destruct (IH (i + 1) s1) as [Hall Hids].
    destruct (gen_records (i + 1) dates s1) as [rest s2]. cbn [fst] in *.
    split; [now constructor|].
    cbn [map List.length seq]. rewrite Hid, Z.add_0_r. f_equal.
    rewrite Hids, <- seq_shift, map_map.
    apply map_ext. intros k. do 3 f_equal. lia.
Qed.

Lemma Forall2_record_dates (dates : list date) (records : list Order) :
  Forall2 record_ok dates records -> map Date records = dates.
Proof.
  induction 1 as [|d r dates records Hr _ IH]; simpl; [reflexivity|].
  destruct Hr as [-> _]. now rewrite IH.
Qed.

Lemma Forall2_record_all (dates : list date) (records : list Order) :
  Forall2 record_ok dates records ->
  Forall (fun r => exists d, In d dates /\ record_ok d r) records.
Proof.
  induction 1 as [|d r dates records Hr _ IH]; constructor.
  - exists d. split; [now left | assumption].
  - eapply Forall_impl; [|exact IH].
    intros r' (d' & Hd' & Hr'). exists d'. split; [now right | assumption].
Qed.

(** The records of a run and the sorted dates they were built from. *)
Lemma generate_records (s0 : rng_state) :
  exists dates : list date,
    List.length dates = N_ORDERS
    /\ Forall (fun d => START_DATE <= d <= END_DATE) dates
    /\ StronglySorted Z.le dates
    /\ Forall2 record_ok dates (fst (generate s0))
    /\ map OrderID (fst (generate s0))
       = map (fun k => ("ORD-" ++ str_int (10000 + Z.of_nat k))%string)
             (seq 0 N_ORDERS).
Proof.
  unfold generate, bind, np_seed.
  destruct (gen_dates_ok N_ORDERS (seeded 42)) as [Hlen Hwin].
  destruct (gen_dates N_ORDERS (seeded 42)) as [dates s1]. cbn [fst] in *.
  exists (sort Z.leb dates).
  pose proof (sort_perm Z.leb dates) as Hperm.
  assert (Hlen' : @List.length date (sort Z.leb dates) = N_ORDERS)
    by (rewrite <- Hlen; exact (Permutation_length Hperm)).
  split; [exact Hlen'|].
  split; [apply (Permutation_Forall (Permutation_sym Hperm) Hwin)|].
  split.
  { apply Sorted_StronglySorted; [intros x y z; apply Z.le_trans|].
    apply (Sorted_weaken (fun a b => Z.leb a b = true)).
    - intros a b. apply Z.leb_le.
    - apply sort_sorted. intros a b.
      destruct (Z.le_ge_cases a b); [left | right]; now apply Z.leb_le. }
  destruct (gen_records_ok (sort Z.leb dates) 0 s1) as [Hall Hids].
  split; [exact Hall|].
  rewrite Hids, Hlen'. reflexivity.
Qed.

(** C8. A run emits [N_ORDERS] records; each has non-negative revenue and
    profit, a city of its region, a product of its category and a date
    inside the generation window; the identifiers are ORD-10000,
    ORD-10001, ... in row order, all distinct, and the rows are in
    ascending date order. *)
Theorem generated_records_invariants (s0 : rng_state) :
  List.length (fst (generate s0)) = N_ORDERS
  /\ Forall (fun r =>
               (0 <= Revenue r)%Q /\ (0 <= Profit r)%Q
               /\ In (City r) (cities_of (Region r))
               /\ In (Product r) (products (category_info (Category r)))
               /\ START_DATE <= Date r <= END_DATE)
            (fst (generate s0))
  /\ map OrderID (fst (generate s0))
     = map (fun k => ("ORD-" ++ str_int (10000 + Z.of_nat k))%string)
           (seq 0 N_ORDERS)
  /\ NoDup (map OrderID (fst (generate s0)))
  /\ StronglySorted Z.le (map Date (fst (generate s0))).
Proof.
  destruct (generate_records s0) as (dates & Hlen & Hwin & Hsort & Hall & Hids).
  split.
  { rewrite <- (length_map Date), (Forall2_record_dates _ _ Hall). exact Hlen. }
  split.
  { eapply Forall_impl; [|exact (Forall2_record_all _ _ Hall)].
    intros r (d & Hd & Hdate & _ & _ & Hprod & _ & Hcity & Hrev & Hprof & _).
    repeat split; try assumption;
      rewrite Hdate; rewrite Forall_forall in Hwin; now apply Hwin. }
  split; [exact Hids|].
  split.
  { rewrite Hids. apply Injective_map_NoDup; [|apply seq_NoDup].
    intros a b H. apply order_id_inj, str_int_inj in H. lia. }
  rewrite (Forall2_record_dates _ _ Hall). exact Hsort.
Qed.

End GeneratorProperties.

Lemma generated_records_invariants_witness :
  List.length (fst (@generate LCG 7)) = N_ORDERS.
Proof. exact (proj1 (@generated_records_invariants LCG 7)). Defined.

(** ** Worked examples *)

(** The generation window is 1095 days long and every day number in it is
    the day number of its own calendar date. *)
Example window_calendar :
  total_days = 1095
  /\ ymd START_DATE = (2022, 1, 1)
  /\ ymd (add_days START_DATE (total_days - 1)) = (2024, 12, 30)
  /\ forallb (fun k =>
                let t := add_days START_DATE (Z.of_nat k) in
                let '(y, m, d) := ymd t in
                datetime y m d =? t)
             (seq 0 1095) = true.
Proof. repeat split; vm_compute; reflexivity. Qed.

(** Three orders drawn with the sample generator: the identifier, the
    calendar cells, the category and the product, as written to the file. *)
Example three_orders :
  map (fun r => firstn 7 (csv_cells r))
      (fst (bind (gen_dates 3) (fun ds => gen_records 0 (sort Z.leb ds))
                 (@seeded LCG 42)))
  = [["ORD-10000"; "2023-04-12"; "Apr 2023"; "Q2 2023"; "2023";
      "Home & Living"; "Curtains"];
     ["ORD-10001"; "2023-09-01"; "Sep 2023"; "Q3 2023"; "2023"; "Books";
      "Comic"];
     ["ORD-10002"; "2024-10-31"; "Oct 2024"; "Q4 2024"; "2024"; "Clothing";
      "Shoes"]]%string.
Proof. vm_compute. reflexivity. Qed.

(** The specification's example: three orders, filtered to 2022. *)
Example filter_2022 :
  List.length (fdf example_table (all_selected [2022])) = 2%nat
  /\ cat_rev (fdf example_table (all_selected [2022]))
     = [("Electronics"%string, 100%Q); ("Clothing"%string, 50%Q)]
  /\ total_rev (fdf example_table (all_selected [2022])) = 150%Q.
Proof. repeat split; vm_compute; reflexivity. Qed.

(** With no year selected nothing is left, the margin card shows 0 and the
    average card has no number to show. *)
Example nothing_selected :
  fdf example_table (all_selected []) = []
  /\ profit_margin (fdf example_table (all_selected [])) = 0%Q
  /\ avg_order (fdf example_table (all_selected [])) = None
  /\ map dow_Orders (dow (fdf example_table (all_selected [])))
     = [None; None; None; None; None; None; None].
Proof. repeat split; vm_compute; reflexivity. Qed.

Example returns_of_example :
  map (fun row => (ret_Category row, TotalOrders row, Returns row,
                   value_of (ReturnRate row)))
      (returns_sorted example_table)
  = [("Electronics"%string, 2, 1, Finite 50);
     ("Clothing"%string, 1, 0, Finite 0)].
Proof. vm_compute. reflexivity. Qed.

(** A term with a regular-expression character is outside the literal
    search modelled here. *)
Example search_with_special_character :
  display_df repr_float example_table "a.c" = None
  /\ display_df repr_float example_table "CLOTH"
     = Some [sample_row "Clothing" (datetime 2022 8 20) 50 "COD" 0].
Proof. split; vm_compute; reflexivity. Qed.

(* ================================================================== *)
(** * Further properties *)

(** ** Lists, sums and partitions *)

Lemma filter_all {A : Type} (p : A -> bool) (l : list A) :
  (forall x, In x l -> p x = true) -> filter p l = l.
Proof.
  induction l as [|x l IH]; simpl; intros H; [reflexivity|].
  rewrite (H x (or_introl eq_refl)), IH; [reflexivity|].
  intros y Hy. apply H. now right.
Qed.

Lemma filter_none_in {A : Type} (p : A -> bool) (l : list A) :
  (forall x, In x l -> p x = false) -> filter p l = [].
Proof.
  induction l as [|x l IH]; simpl; intros H; [reflexivity|].
  rewrite (H x (or_introl eq_refl)). apply IH.
  intros y Hy. apply H. now right.
Qed.

Lemma filter_disjoint_perm {A : Type} (p q : A -> bool) (l : list A) :
  (forall x, In x l -> p x && q x = false) ->
  Permutation (filter p l ++ filter q l) (filter (fun x => p x || q x) l).
Proof.
  induction l as [|x l IH]; simpl; intros H; [reflexivity|].
  assert (IH' := IH (fun y Hy => H y (or_intror Hy))).
  pose proof (H x (or_introl eq_refl)) as Hx.
  destruct (p x), (q x); simpl in *; try discriminate.
  - now constructor.
  - rewrite <- Permutation_middle. now constructor.
  - exact IH'.
Qed.

Lemma int_sum_perm (l l' : list Z) :
  Permutation l l' -> int_sum l = int_sum l'.
Proof.
  induction 1; simpl; lia.
Qed.

Lemma series_sum_app (l l' : list Q) :
  (series_sum (l ++ l') == series_sum l + series_sum l')%Q.
Proof.
  induction l as [|x l IH]; simpl; [ring | rewrite IH; ring].
Qed.

Lemma series_sum_concat {A : Type} (f : A -> Q) (ls : list (list A)) :
  (series_sum (map f (List.concat ls))
   == series_sum (map (fun l => series_sum (map f l)) ls))%Q.
Proof.
  induction ls as [|l ls IH]; simpl; [reflexivity|].
  now rewrite map_app, series_sum_app, IH.
Qed.

Lemma count_concat {A : Type} (ls : list (list A)) :
  count (List.concat ls) = int_sum (map (fun l => count l) ls).
Proof.
  unfold count. induction ls as [|l ls IH]; simpl; [reflexivity|].
  rewrite length_app. lia.
Qed.

Lemma count_column {A : Type} (f : Row -> A) (df : DataFrame) :
  count (column f df) = count df.
Proof. unfold count, column. now rewrite length_map. Qed.

(** The totals of the groups of a partition are the totals of the table. *)
Lemma groups_total_Q {K : Type} (f : Row -> Q) (groups : list (K * DataFrame))
  (df : DataFrame) :
  Permutation (List.concat (map snd groups)) df ->
  (series_sum (map (fun g => series_sum (column f (snd g))) groups)
   == series_sum (column f df))%Q.
Proof.
  intros H. unfold column.
  rewrite <- (series_sum_perm _ _ (Permutation_map f H)).
  rewrite series_sum_concat, map_map. reflexivity.
Qed.

Lemma groups_total_count {K A : Type} (h : Row -> A)
  (groups : list (K * DataFrame)) (df : DataFrame) :
  Permutation (List.concat (map snd groups)) df ->
  int_sum (map (fun g => count (column h (snd g))) groups) = count df.
Proof.
  intros H. unfold count at 2. rewrite <- (Permutation_length H).
  fold (count (List.concat (map snd groups))).
  rewrite count_concat, map_map.
  f_equal. apply map_ext. intros g. apply count_column.
Qed.

Section Partition.

Context {K : Type} (eqb : K -> K -> bool).
Hypothesis eqb_eq : forall a b, eqb a b = true <-> a = b.

Lemma existsb_key_In (x : K) (l : list K) :
  existsb (eqb x) l = true <-> In x l.
Proof.
  rewrite existsb_exists. split.
  - intros [y [Hy He]]. apply eqb_eq in He. now subst.
  - intros H. exists x. split; [assumption | now apply eqb_eq].
Qed.

(** Filtering by each of several distinct keys splits the rows that carry
    one of them. *)
Lemma partition_perm (key : Row -> K) (keys : list K) (df : DataFrame) :
  NoDup keys ->
  Permutation
    (List.concat (map (fun k => filter (fun r => eqb (key r) k) df) keys))
    (filter (fun r => existsb (eqb (key r)) keys) df).
Proof.
  induction 1 as [|k keys Hk Hnd IH]; simpl.
  - induction df as [|r df IHdf]; simpl; [reflexivity | exact IHdf].
  - rewrite IH. apply filter_disjoint_perm.
    intros r _. destruct (eqb (key r) k) eqn:E; [|reflexivity].
    apply eqb_eq in E. simpl.
    destruct (existsb (eqb (key r)) keys) eqn:E'; [|reflexivity].
    apply existsb_key_In in E'. subst k. contradiction.
Qed.

Lemma partition_cover (key : Row -> K) (keys : list K) (df : DataFrame) :
  NoDup keys -> (forall r, In r df -> In (key r) keys) ->
  Permutation
    (List.concat (map (fun k => filter (fun r => eqb (key r) k) df) keys)) df.
Proof.
  intros Hnd Hcov. rewrite (partition_perm key keys df Hnd).
  rewrite filter_all; [reflexivity|].
  intros r Hr. apply existsb_key_In, Hcov, Hr.
Qed.

Lemma unique_by_In (x : K) (l : list K) : In x (unique_by eqb l) <-> In x l.
Proof.
  induction l as [|y l IH]; simpl; [tauto|].
  rewrite filter_In, IH. split.
  - intros [H|[H _]]; auto.
  - intros [H|H]; [now left|].
    destruct (eqb y x) eqn:E.
    + left. now apply eqb_eq.
    + right. split; [assumption | reflexivity].
Qed.

Lemma unique_by_NoDup (l : list K) : NoDup (unique_by eqb l).
Proof.
  induction l as [|y l IH]; simpl; constructor.
  - rewrite filter_In. intros [_ H].
    assert (E : eqb y y = true) by now apply eqb_eq.
    now rewrite E in H.
  - now apply NoDup_filter.
Qed.

Variable leb : K -> K -> bool.

Lemma group_keys_by_In (key : Row -> K) (df : DataFrame) (k : K) :
  In k (group_keys_by eqb leb key df) <-> In k (column key df).
Proof.
  unfold group_keys_by. rewrite <- (unique_by_In k (column key df)).
  split; apply Permutation_in; [|symmetry]; apply sort_perm.
Qed.

Lemma group_keys_by_NoDup (key : Row -> K) (df : DataFrame) :
  NoDup (group_keys_by eqb leb key df).
Proof.
  unfold group_keys_by.
  apply (Permutation_NoDup (l := unique_by eqb (column key df)));
    [symmetry; apply sort_perm | apply unique_by_NoDup].
Qed.

Lemma groupby_by_partition (key : Row -> K) (df : DataFrame) :
  Permutation (List.concat (map snd (groupby_by eqb leb key df))) df.
Proof.
  unfold groupby_by. rewrite map_map. simpl.
  apply partition_cover; [apply group_keys_by_NoDup|].
  intros r Hr. apply group_keys_by_In. unfold column.
  apply in_map_iff. now exists r.
Qed.

Lemma groupby_by_nonempty (key : Row -> K) (df : DataFrame) :
  Forall (fun g => 1 <= count (snd g)
                   /\ Forall (fun r => key r = fst g) (snd g))
         (groupby_by eqb leb key df).
Proof.
  unfold groupby_by. apply Forall_forall. intros g Hg.
  apply in_map_iff in Hg as (k & <- & Hk). simpl.
  apply group_keys_by_In in Hk. unfold column in Hk.
  apply in_map_iff in Hk as (r & Hr & Hin). split.
  - assert (Hf : In r (filter (fun r0 => eqb (key r0) k) df))
      by (apply filter_In; split; [assumption | now apply eqb_eq]).
    unfold count. destruct (filter (fun r0 => eqb (key r0) k) df);
      [contradiction | simpl; lia].
  - apply Forall_forall. intros r' Hr'. apply filter_In in Hr' as [_ E].
    now apply eqb_eq.
Qed.

End Partition.

Lemma groupby_partition (key : Row -> string) (df : DataFrame) :
  Permutation (List.concat (map snd (groupby key df))) df.
Proof.
  unfold groupby. rewrite map_map. simpl.
  apply (partition_cover String.eqb String.eqb_eq);
    [apply group_keys_NoDup|].
  intros r Hr. apply group_keys_In. unfold column.
  apply in_map_iff. now exists r.
Qed.

Lemma groupby_nonempty (key : Row -> string) (df : DataFrame) :
  Forall (fun g => 1 <= count (snd g)) (groupby key df).
Proof.
  unfold groupby. apply Forall_forall. intros g Hg.
  apply in_map_iff in Hg as (k & <- & Hk). simpl.
  apply group_nonempty, group_keys_In, Hk.
Qed.

(** Sorting by a rational measure. *)
Lemma sort_ascending_Q {A : Type} (f : A -> Q) (l : list A) :
  StronglySorted (fun a b => (f a <= f b)%Q)
                 (sort (fun a b => Qle_bool (f a) (f b)) l).
Proof.
  apply Sorted_StronglySorted.
  { intros x y z Hxy Hyz. eapply Qle_trans; eassumption. }
  apply (Sorted_weaken (fun a b => Qle_bool (f a) (f b) = true)).
  { intros a b. apply Qle_bool_iff. }
  apply sort_sorted. intros a b.
  destruct (Qlt_le_dec (f b) (f a)) as [H|H].
  - right. apply Qle_bool_iff. now apply Qlt_le_weak.
  - left. now apply Qle_bool_iff.
Qed.

Lemma sort_descending_Q {A : Type} (f : A -> Q) (l : list A) :
  StronglySorted (fun a b => (f b <= f a)%Q)
                 (sort (fun a b => Qle_bool (f b) (f a)) l).
Proof.
  apply Sorted_StronglySorted.
  { intros x y z Hxy Hyz. eapply Qle_trans; eassumption. }
  apply (Sorted_weaken (fun a b => Qle_bool (f b) (f a) = true)).
  { intros a b. apply Qle_bool_iff. }
  apply sort_sorted. intros a b.
  destruct (Qlt_le_dec (f b) (f a)) as [H|H].
  - left. apply Qle_bool_iff. now apply Qlt_le_weak.
  - right. now apply Qle_bool_iff.
Qed.

Lemma float_div_by_count (a : Q) (n : Z) :
  1 <= n -> float_div a (inject_Z n) = Some (a / inject_Z n)%Q.
Proof.
  intros H. unfold float_div.
  destruct (Qeq_bool (inject_Z n) 0) eqn:E; [|reflexivity].
  apply Qeq_bool_iff in E. unfold Qeq in E. simpl in E. lia.
Qed.

(** ** Sidebar *)

Lemma unique_int_In (x : Z) (l : list Z) : In x (unique_int l) <-> In x l.
Proof.
  induction l as [|y l IH]; simpl; [tauto|].
  split.
  - intros [H|H]; [now left|]. apply in_remove in H. right. tauto.
  - intros [H|H]; [now left|].
    destruct (Z.eq_dec y x) as [E|E]; [now left|].
    right. apply in_in_remove; [congruence | tauto].
Qed.

Lemma years_In (df : DataFrame) (y : Z) :
  In y (years df) <-> In y (column Year df).
Proof.
  unfold years. rewrite <- (unique_int_In y (column Year df)).
  split; apply Permutation_in; [|symmetry]; apply sort_perm.
Qed.

Lemma in_column {A : Type} (f : Row -> A) (df : DataFrame) (r : Row) :
  In r df -> In (f r) (column f df).
Proof. intros H. unfold column. apply in_map_iff. now exists r. Qed.

(** X1. With the selection a fresh page starts with (every option of every
    multiselect selected) the filter keeps the whole table. *)
Theorem default_selection_keeps_all (df : DataFrame) :
  fdf df (default_selection df) = df.
Proof.
  rewrite fdf_filter. apply filter_all. intros r Hr.
  apply row_passes_iff. simpl. repeat split.
  - apply years_In. now apply (in_column (fun r : Row => Year r)).
  - apply (group_keys_In (fun r : Row => Category r)).
    now apply (in_column (fun r : Row => Category r)).
  - apply (group_keys_In (fun r : Row => Region r)).
    now apply (in_column (fun r : Row => Region r)).
  - apply (group_keys_In (fun r : Row => Channel r)).
    now apply (in_column (fun r : Row => Channel r)).
Qed.

(** ** Monthly trend *)

(** X2. The monthly trend has one row per month period that occurs in the
    filtered table, in ascending order of month period; every row counts at
    least one order, and the orders, revenues and profits of its rows add up
    to those of the whole filtered table. *)
Theorem monthly_totals (t : DataFrame) :
  Sorted (fun a b => String.leb (mon_MonthNum a) (mon_MonthNum b) = true)
         (monthly t)
  /\ NoDup (map mon_MonthNum (monthly t))
  /\ (forall m, In m (map mon_MonthNum (monthly t))
                <-> In m (column MonthNum t))
  /\ Forall (fun row => 1 <= mon_Orders row) (monthly t)
  /\ int_sum (map mon_Orders (monthly t)) = total_orders t
  /\ (series_sum (map mon_Revenue (monthly t)) == total_rev t)%Q
  /\ (series_sum (map mon_Profit (monthly t)) == total_profit t)%Q.
Proof.
  pose proof (sort_perm
                (fun a b => String.leb (mon_MonthNum a) (mon_MonthNum b))
                (map (fun g => mkMonthlyRow (fst g)
                                 (series_sum (column Revenue (snd g)))
                                 (series_sum (column Profit (snd g)))
                                 (count (column OrderID (snd g))))
                     (groupby MonthNum t))) as Hperm.
  fold (monthly t) in Hperm.
  assert (Hkeys : Permutation (map mon_MonthNum (monthly t))
                              (group_keys MonthNum t)).
  { rewrite (Permutation_map mon_MonthNum Hperm), map_map. simpl.
    now rewrite groupby_keys. }
  split.
  { unfold monthly. apply sort_sorted. intros a b. apply String.leb_total. }
  split.
  { apply (Permutation_NoDup (l := group_keys MonthNum t));
      [now symmetry | apply group_keys_NoDup]. }
  split.
  { intros m. rewrite <- group_keys_In.
    split; apply Permutation_in; [|symmetry]; exact Hkeys. }
  split.
  { apply (Permutation_Forall (Permutation_sym Hperm)).
    apply Forall_map. simpl.
    eapply Forall_impl; [|apply (groupby_nonempty MonthNum t)].
    intros g Hg. now rewrite count_column. }
  split.
  { rewrite (int_sum_perm _ _ (Permutation_map mon_Orders Hperm)), map_map.
    simpl. apply groups_total_count, groupby_partition. }
  split.
  - rewrite (series_sum_perm _ _ (Permutation_map mon_Revenue Hperm)), map_map.
    simpl. apply (groups_total_Q (fun r : Row => Revenue r)), groupby_partition.
  - rewrite (series_sum_perm _ _ (Permutation_map mon_Profit Hperm)), map_map.
    simpl. apply (groups_total_Q (fun r : Row => Profit r)), groupby_partition.
Qed.

(** ** Category, region and channel views *)

(** X3. The category breakdown has one row per category that occurs in the
    filtered table, carrying the revenue of that category's orders, and its
    rows come largest revenue first. *)
Theorem cat_rev_descending (t : DataFrame) :
  StronglySorted (fun a b => (snd b <= snd a)%Q) (cat_rev t)
  /\ NoDup (map fst (cat_rev t))
  /\ (forall c, In c (map fst (cat_rev t)) <-> In c (column Category t))
  /\ Forall (fun row =>
               snd row
               = series_sum
                   (column Revenue
                      (filter (fun r : Row => String.eqb (Category r) (fst row))
                              t)))
            (cat_rev t).
Proof.
  pose proof (sort_perm
                (fun a b : string * Q => Qle_bool (snd b) (snd a))
                (map (fun g => (fst g, series_sum (column Revenue (snd g))))
                     (groupby Category t))) as Hperm.
  fold (cat_rev t) in Hperm.
  assert (Hkeys : Permutation (map fst (cat_rev t)) (group_keys Category t)).
  { rewrite (Permutation_map fst Hperm), map_map. simpl.
    now rewrite groupby_keys. }
  split; [apply (sort_descending_Q snd)|].
  split.
  { apply (Permutation_NoDup (l := group_keys Category t));
      [now symmetry | apply group_keys_NoDup]. }
  split.
  { intros c. rewrite <- group_keys_In.
    split; apply Permutation_in; [|symmetry]; exact Hkeys. }
  apply (Permutation_Forall (Permutation_sym Hperm)).
  apply Forall_map. unfold groupby. apply Forall_map. simpl.
  apply Forall_forall. reflexivity.
Qed.

(** X4. The regional view has one row per region that occurs in the
    filtered table; its orders, revenues and profits add up to those of the
    whole filtered table, and the plotted frame is in ascending order of
    revenue. *)
Theorem region_totals (t : DataFrame) :
  StronglySorted (fun a b => (reg_Revenue a <= reg_Revenue b)%Q)
                 (region_sorted t)
  /\ Permutation (region_sorted t) (region_data t)
  /\ map reg_Region (region_data t) = group_keys Region t
  /\ NoDup (map reg_Region (region_data t))
  /\ (forall x, In x (map reg_Region (region_data t))
                <-> In x (column Region t))
  /\ Forall (fun row => 1 <= reg_Orders row) (region_data t)
  /\ int_sum (map reg_Orders (region_data t)) = total_orders t
  /\ (series_sum (map reg_Revenue (region_data t)) == total_rev t)%Q
  /\ (series_sum (map reg_Profit (region_data t)) == total_profit t)%Q.
Proof.
  assert (Hkeys : map reg_Region (region_data t) = group_keys Region t).
  { unfold region_data. rewrite map_map. simpl. apply groupby_keys. }
  split; [apply (sort_ascending_Q reg_Revenue)|].
  split; [apply sort_perm|].
  split; [exact Hkeys|].
  split; [rewrite Hkeys; apply group_keys_NoDup|].
  split; [intros x; rewrite Hkeys; apply group_keys_In|].
  split.
  { unfold region_data. apply Forall_map. simpl.
    eapply Forall_impl; [|apply (groupby_nonempty Region t)].
    intros g Hg. now rewrite count_column. }
  unfold region_data. rewrite !map_map. simpl.
  split; [apply groups_total_count, groupby_partition|].
  split.
  - apply (groups_total_Q (fun r : Row => Revenue r)), groupby_partition.
  - apply (groups_total_Q (fun r : Row => Profit r)), groupby_partition.
Qed.

(** X5. The channel view has one row per channel that occurs in the filtered
    table; each row has at least one order and a defined average order
    value, the revenue of the row divided by its order count; orders and
    revenues add up to those of the filtered table, and the plotted frame is
    in descending order of revenue. *)
Theorem channel_totals (t : DataFrame) :
  StronglySorted (fun a b => (chn_Revenue b <= chn_Revenue a)%Q)
                 (channel_sorted t)
  /\ Permutation (channel_sorted t) (channel_data t)
  /\ map chn_Channel (channel_data t) = group_keys Channel t
  /\ Forall (fun row =>
               1 <= chn_Orders row
               /\ chn_AvgOrder row
                  = Some (chn_Revenue row / inject_Z (chn_Orders row))%Q)
            (channel_data t)
  /\ int_sum (map chn_Orders (channel_data t)) = total_orders t
  /\ (series_sum (map chn_Revenue (channel_data t)) == total_rev t)%Q.
Proof.
  split; [apply (sort_descending_Q chn_Revenue)|].
  split; [apply sort_perm|].
  split.
  { unfold channel_data. rewrite map_map. simpl. apply groupby_keys. }
  split.
  { unfold channel_data. apply Forall_map. simpl.
    eapply Forall_impl; [|apply (groupby_nonempty Channel t)].
    intros g Hg. simpl in Hg. unfold series_mean.
    rewrite !count_column. split; [assumption|].
    now apply float_div_by_count. }
  unfold channel_data. rewrite !map_map. simpl.
  split; [apply groups_total_count, groupby_partition|].
  apply (groups_total_Q (fun r : Row => Revenue r)), groupby_partition.
Qed.

(** ** Payment mix *)

Lemma filter_column_count (key : Row -> string) (v : string) (t : DataFrame) :
  count (filter (String.eqb v) (column key t))
  = count (filter (fun r => String.eqb (key r) v) t).
Proof.
  unfold count, column. f_equal.
  induction t as [|r t IH]; simpl; [reflexivity|].
  rewrite (String.eqb_sym v (key r)).
  destruct (String.eqb (key r) v); simpl; now rewrite IH.
Qed.

Lemma sort_descending_Z {A : Type} (f : A -> Z) (l : list A) :
  StronglySorted (fun a b => f b <= f a)
                 (sort (fun a b => Z.leb (f b) (f a)) l).
Proof.
  apply Sorted_StronglySorted.
  { intros x y z Hxy Hyz. lia. }
  apply (Sorted_weaken (fun a b => Z.leb (f b) (f a) = true)).
  { intros a b. apply Z.leb_le. }
  apply sort_sorted. intros a b.
  destruct (Z.le_ge_cases (f a) (f b)); [right | left]; now apply Z.leb_le.
Qed.

(** X6. The payment mix lists every payment method that occurs in the
    filtered table once, with the number of its orders (at least one), most
    frequent first; the counts add up to the number of filtered orders. *)
Theorem pay_counts (t : DataFrame) :
  StronglySorted (fun a b => snd b <= snd a) (pay t)
  /\ NoDup (map fst (pay t))
  /\ (forall m, In m (map fst (pay t)) <-> In m (column PaymentMethod t))
  /\ Forall (fun row =>
               1 <= snd row
               /\ snd row
                  = count (filter (fun r : Row =>
                                     String.eqb (PaymentMethod r) (fst row)) t))
            (pay t)
  /\ int_sum (map snd (pay t)) = total_orders t.
Proof.
  unfold pay. set (col := column PaymentMethod t).
  pose proof (sort_perm
                (fun a b : string * Z => Z.leb (snd b) (snd a))
                (map (fun v => (v, count (filter (String.eqb v) col)))
                     (unique col))) as Hperm.
  fold (value_counts col) in Hperm.
  assert (Hkeys : Permutation (map fst (value_counts col)) (unique col)).
  { rewrite (Permutation_map fst Hperm), map_map. simpl. now rewrite map_id. }
  split; [apply (sort_descending_Z snd)|].
  split.
  { apply (Permutation_NoDup (l := unique col));
      [now symmetry | apply unique_NoDup]. }
  split.
  { intros m. rewrite <- (unique_In m col).
    split; apply Permutation_in; [|symmetry]; exact Hkeys. }
  split.
  { apply (Permutation_Forall (Permutation_sym Hperm)).
    apply Forall_map. simpl. apply Forall_forall. intros v Hv.
    unfold col. rewrite filter_column_count. split; [|reflexivity].
    apply group_nonempty. now apply unique_In. }
  rewrite (int_sum_perm _ _ (Permutation_map snd Hperm)), map_map. simpl.
  unfold total_orders, count at 2.
  rewrite <- (Permutation_length
                (partition_cover String.eqb String.eqb_eq
                   (fun r : Row => PaymentMethod r) (unique col) t
                   (unique_NoDup col)
                   (fun r Hr => proj2 (unique_In _ _)
                                  (in_column (fun r : Row => PaymentMethod r)
                                             t r Hr)))).
  fold (count (List.concat
                 (map (fun k => filter (fun r : Row =>
                                          String.eqb (PaymentMethod r) k) t)
                      (unique col)))).
  rewrite count_concat, map_map. f_equal. apply map_ext. intros v.
  unfold col. apply filter_column_count.
Qed.

(** ** Top products *)

Lemma StronglySorted_firstn {A : Type} (R : A -> A -> Prop) (n : nat)
  (l : list A) :
  StronglySorted R l -> StronglySorted R (firstn n l).
Proof.
  revert n. induction l as [|x l IH]; intros [|n] Hs; simpl;
    try constructor.
  - apply IH. now inversion Hs.
  - inversion Hs as [|? ? _ Hall]; subst.
    apply Forall_forall. intros y Hy. rewrite Forall_forall in Hall.
    apply Hall. rewrite <- (firstn_skipn n l). apply in_or_app. now left.
Qed.

Lemma sorted_firstn_skipn {A : Type} (R : A -> A -> Prop) (n : nat)
  (l : list A) :
  StronglySorted R l ->
  forall a b, In a (firstn n l) -> In b (skipn n l) -> R a b.
Proof.
  revert n. induction l as [|x l IH]; intros [|n] Hs a b Ha Hb; simpl in *;
    try contradiction.
  inversion Hs as [|? ? Hs' Hall]; subst. destruct Ha as [<-|Ha].
  - rewrite Forall_forall in Hall. apply Hall.
    rewrite <- (firstn_skipn n l). apply in_or_app. now right.
  - now apply (IH n).
Qed.

(** X7. The top-products view holds ten products, or all of them when there
    are fewer; no product left out has more revenue than a product listed;
    the listed products come largest first, and the plotted frame holds the
    same rows in ascending order of revenue. *)
Theorem top_products_largest (t : DataFrame) :
  List.length (top_products t)
  = Nat.min 10 (List.length (group_keys Product t))
  /\ StronglySorted (fun a b => (snd b <= snd a)%Q) (top_products t)
  /\ (exists rest,
        Permutation (top_products t ++ rest) (product_revenue t)
        /\ forall a b, In a (top_products t) -> In b rest ->
                       (snd b <= snd a)%Q)
  /\ Permutation (top_products_sorted t) (top_products t)
  /\ StronglySorted (fun a b => (snd a <= snd b)%Q) (top_products_sorted t).
Proof.
  unfold top_products, nlargest.
  set (ranked := sort (fun a b : string * Q => Qle_bool (snd b) (snd a))
                      (product_revenue t)).
  assert (Hperm : Permutation ranked (product_revenue t)) by apply sort_perm.
  assert (Hsorted : StronglySorted (fun a b : string * Q => (snd b <= snd a)%Q)
                                   ranked)
    by apply (sort_descending_Q snd).
  split.
  { rewrite length_firstn, (Permutation_length Hperm).
    unfold product_revenue, groupby. now rewrite !length_map. }
  split; [now apply StronglySorted_firstn|].
  split.
  { exists (skipn 10 ranked). split.
    - now rewrite firstn_skipn.
    - intros a b Ha Hb.
      exact (sorted_firstn_skipn _ 10 ranked Hsorted a b Ha Hb). }
  split; [apply sort_perm | apply (sort_ascending_Q snd)].
Qed.

(** ** Discount impact and year over year *)

Lemma Z_eqb_iff (a b : Z) : Z.eqb a b = true <-> a = b.
Proof. apply Z.eqb_eq. Qed.

Lemma year_cat_eqb_iff (a b : Z * string) :
  year_cat_eqb a b = true <-> a = b.
Proof.
  unfold year_cat_eqb. destruct a as [y c], b as [y' c']. simpl.
  rewrite andb_true_iff, Z.eqb_eq, String.eqb_eq. split.
  - intros [-> ->]. reflexivity.
  - intros H. injection H as -> ->. auto.
Qed.

Lemma year_cat_leb_total (a b : Z * string) :
  year_cat_leb a b = true \/ year_cat_leb b a = true.
Proof.
  unfold year_cat_leb. rewrite (Z.eqb_sym (fst b) (fst a)).
  destruct (Z.eqb_spec (fst a) (fst b)) as [E|E].
  - apply String.leb_total.
  - destruct (Z.le_ge_cases (fst a) (fst b)); [left | right];
      now apply Z.leb_le.
Qed.

(** X8. The discount view has one row per discount level that occurs in the
    filtered table, in ascending order of discount; each row has at least
    one order and a defined mean revenue, its revenue divided by its order
    count; orders and revenues add up to those of the filtered table. *)
Theorem disc_totals (t : DataFrame) :
  StronglySorted Z.le (map dsc_Discount (disc t))
  /\ NoDup (map dsc_Discount (disc t))
  /\ (forall d, In d (map dsc_Discount (disc t)) <-> In d (column Discount t))
  /\ Forall (fun row =>
               1 <= dsc_Orders row
               /\ dsc_AvgRevenue row
                  = Some (dsc_Revenue row / inject_Z (dsc_Orders row))%Q)
            (disc t)
  /\ int_sum (map dsc_Orders (disc t)) = total_orders t
  /\ (series_sum (map dsc_Revenue (disc t)) == total_rev t)%Q.
Proof.
  assert (Hkeys : map dsc_Discount (disc t)
                  = group_keys_by Z.eqb Z.leb (fun r : Row => Discount r) t).
  { unfold disc, groupby_by. rewrite !map_map. simpl. apply map_id. }
  split.
  { rewrite Hkeys. unfold group_keys_by.
    apply Sorted_StronglySorted; [intros x y z; apply Z.le_trans|].
    apply (Sorted_weaken (fun a b => Z.leb a b = true)).
    - intros a b. apply Z.leb_le.
    - apply sort_sorted. intros a b.
      destruct (Z.le_ge_cases a b); [left | right]; now apply Z.leb_le. }
  split; [rewrite Hkeys; apply (group_keys_by_NoDup Z.eqb Z_eqb_iff)|].
  split.
  { intros d. rewrite Hkeys. apply (group_keys_by_In Z.eqb Z_eqb_iff). }
  split.
  { unfold disc. apply Forall_map. simpl.
    eapply Forall_impl;
      [|apply (groupby_by_nonempty Z.eqb Z_eqb_iff Z.leb
                 (fun r : Row => Discount r) t)].
    intros g [Hg _]. unfold series_mean. rewrite !count_column.
    split; [assumption | now apply float_div_by_count]. }
  unfold disc. rewrite !map_map. simpl.
  split.
  - apply groups_total_count, (groupby_by_partition Z.eqb Z_eqb_iff).
  - apply (groups_total_Q (fun r : Row => Revenue r)),
      (groupby_by_partition Z.eqb Z_eqb_iff).
Qed.

(** X9. The year-over-year view has one row per (year, category) pair that
    occurs in the filtered table, ordered by year and then by category; each
    row carries the revenue of the orders of that year and category, and the
    revenues add up to the total revenue of the filtered table. *)
Theorem yoy_totals (t : DataFrame) :
  Sorted (fun a b => year_cat_leb (fst a) (fst b) = true) (yoy t)
  /\ NoDup (map fst (yoy t))
  /\ (forall y c, In (y, c) (map fst (yoy t))
                  <-> exists r : Row, In r t /\ Year r = y /\ Category r = c)
  /\ Forall (fun row =>
               snd row
               = series_sum
                   (column Revenue
                      (filter (fun r : Row =>
                                 Z.eqb (Year r) (fst (fst row))
                                 && String.eqb (Category r) (snd (fst row)))
                              t)))
            (yoy t)
  /\ (series_sum (map snd (yoy t)) == total_rev t)%Q.
Proof.
  assert (Hkeys : map fst (yoy t)
                  = group_keys_by year_cat_eqb year_cat_leb
                      (fun r : Row => (Year r, Category r)) t).
  { unfold yoy, groupby_by. rewrite !map_map. simpl. apply map_id. }
  split.
  { assert (Hs : Sorted (fun a b => year_cat_leb a b = true) (map fst (yoy t))).
    { rewrite Hkeys. apply sort_sorted. apply year_cat_leb_total. }
    revert Hs. generalize (yoy t). intros l.
    induction l as [|a l IH]; simpl; intros Hs; [constructor|].
    inversion Hs as [|? ? Hs' Hhd]; subst.
    constructor; [now apply IH|].
    destruct l; simpl in *; constructor. now inversion Hhd. }
  split; [rewrite Hkeys; apply (group_keys_by_NoDup _ year_cat_eqb_iff)|].
  split.
  { intros y c. rewrite Hkeys, (group_keys_by_In _ year_cat_eqb_iff).
    unfold column. rewrite in_map_iff. split.
    - intros (r & E & Hr). injection E as <- <-. now exists r.
    - intros (r & Hr & <- & <-). now exists r. }
  split.
  { unfold yoy, groupby_by. rewrite !Forall_map. simpl.
    apply Forall_forall. reflexivity. }
  unfold yoy. rewrite map_map. simpl.
  apply (groups_total_Q (fun r : Row => Revenue r)),
    (groupby_by_partition _ year_cat_eqb_iff).
Qed.

(** ** Rounding *)

Lemma rint_proper (x y : Q) : (x == y)%Q -> rint x = rint y.
Proof.
  intros H. unfold rint. rewrite (Qfloor_comp x y H).
  assert (E : Qcompare (x - inject_Z (Qfloor y)) (1 # 2)
              = Qcompare (y - inject_Z (Qfloor y)) (1 # 2))
    by (apply Qcompare_comp; [now rewrite H | reflexivity]).
  now rewrite E.
Qed.

Lemma rint_inject_Z (z : Z) : rint (inject_Z z) = z.
Proof.
  unfold rint. rewrite Qfloor_Z.
  assert (E : Qcompare (inject_Z z - inject_Z z) (1 # 2) = Lt)
    by (rewrite <- Qlt_alt; lra).
  now rewrite E.
Qed.

Lemma rint_mono (x y : Q) : (x <= y)%Q -> rint x <= rint y.
Proof.
  intros H. unfold rint.
  pose proof (Qfloor_resp_le _ _ H) as Hf.
  destruct (Z.eq_dec (Qfloor x) (Qfloor y)) as [E|E].
  - rewrite E. generalize (inject_Z (Qfloor y)). intros f.
    destruct (Qcompare_spec (x - f) (1 # 2));
      destruct (Qcompare_spec (y - f) (1 # 2));
      destruct (Z.even (Qfloor y)); try lia; exfalso; lra.
  - destruct (Qcompare (x - inject_Z (Qfloor x)) (1 # 2));
      destruct (Qcompare (y - inject_Z (Qfloor y)) (1 # 2));
      destruct (Z.even (Qfloor x)); destruct (Z.even (Qfloor y)); lia.
Qed.

(** Rounding to an integer moves a value by at most one half. *)
Lemma rint_error (x : Q) :
  (inject_Z (rint x) - (1 # 2) <= x /\ x <= inject_Z (rint x) + (1 # 2))%Q.
Proof.
  unfold rint.
  pose proof (Qfloor_le x) as Lx. pose proof (Qlt_floor x) as Ux.
  rewrite inject_Z_plus in Ux. change (inject_Z 1) with 1%Q in Ux.
  destruct (Qcompare_spec (x - inject_Z (Qfloor x)) (1 # 2));
    [destruct (Z.even (Qfloor x))| |];
    rewrite ?inject_Z_plus; change (inject_Z 1) with 1%Q; split; lra.
Qed.

Lemma pow10_pos (n : nat) : (0 < inject_Z (10 ^ Z.of_nat n))%Q.
Proof.
  change 0%Q with (inject_Z 0). rewrite <- Zlt_Qlt.
  apply Z.pow_pos_nonneg; lia.
Qed.

Lemma round_nd_proper (n : nat) (x y : Q) :
  (x == y)%Q -> round_nd n x = round_nd n y.
Proof.
  intros H. unfold round_nd. f_equal. f_equal. apply rint_proper.
  now rewrite H.
Qed.

Lemma round_nd_mono (n : nat) (x y : Q) :
  (x <= y)%Q -> (round_nd n x <= round_nd n y)%Q.
Proof.
  intros H. unfold round_nd, Qdiv. pose proof (pow10_pos n) as Hp.
  apply Qmult_le_compat_r.
  - rewrite <- Zle_Qle. apply rint_mono.
    apply Qmult_le_compat_r; [assumption | now apply Qlt_le_weak].
  - apply Qinv_le_0_compat. now apply Qlt_le_weak.
Qed.

(** A value with at most [n] decimals is left as it is. *)
Lemma round_nd_fixed (n : nat) (k : Z) :
  (round_nd n (inject_Z k / inject_Z (10 ^ Z.of_nat n))
   == inject_Z k / inject_Z (10 ^ Z.of_nat n))%Q.
Proof.
  pose proof (pow10_pos n) as Hp. unfold round_nd.
  rewrite (rint_proper _ (inject_Z k)), rint_inject_Z; [reflexivity|].
  field. intros E. rewrite E in Hp. now apply (Qlt_irrefl 0).
Qed.

Lemma round_nd_int (n : nat) (z : Z) :
  (round_nd n (inject_Z z) == inject_Z z)%Q.
Proof.
  pose proof (pow10_pos n) as Hp. unfold round_nd.
  rewrite (rint_proper _ (inject_Z (z * 10 ^ Z.of_nat n))), rint_inject_Z
    by (now rewrite inject_Z_mult).
  rewrite inject_Z_mult. field.
  intros E. rewrite E in Hp. now apply (Qlt_irrefl 0).
Qed.

(** Rounding to [n] decimals moves a value by at most half a unit of the
    last decimal. *)
Lemma round_nd_error (n : nat) (x : Q) :
  (round_nd n x - (1 # 2) / inject_Z (10 ^ Z.of_nat n) <= x
   /\ x <= round_nd n x + (1 # 2) / inject_Z (10 ^ Z.of_nat n))%Q.
Proof.
  pose proof (pow10_pos n) as Hp. unfold round_nd.
  destruct (rint_error (x * inject_Z (10 ^ Z.of_nat n))) as [Hlo Hhi].
  set (p := inject_Z (10 ^ Z.of_nat n)) in *.
  set (r := inject_Z (rint (x * p))) in *.
  assert (Hp' : ~ (p == 0)%Q)
    by (intros E; rewrite E in Hp; now apply (Qlt_irrefl 0)).
  split.
  - setoid_replace (r / p - (1 # 2) / p)%Q with ((r - (1 # 2)) / p)%Q
      by (field; exact Hp').
    now apply Qle_shift_div_r.
  - setoid_replace (r / p + (1 # 2) / p)%Q with ((r + (1 # 2)) / p)%Q
      by (field; exact Hp').
    now apply Qle_shift_div_l.
Qed.

(** ** Mean rating *)

Lemma count_cons {A : Type} (x : A) (l : list A) : count (x :: l) = count l + 1.
Proof. unfold count. simpl List.length. lia. Qed.

Lemma series_sum_bounds (lo hi : Q) (col : list Q) :
  Forall (fun x => lo <= x /\ x <= hi)%Q col ->
  (lo * inject_Z (count col) <= series_sum col
   /\ series_sum col <= hi * inject_Z (count col))%Q.
Proof.
  induction 1 as [|x col [Hlo Hhi] _ [IHlo IHhi]].
  - change (inject_Z (count (@nil Q))) with 0%Q. simpl series_sum.
    rewrite !Qmult_0_r. split; apply Qle_refl.
  - rewrite count_cons, inject_Z_plus. change (inject_Z 1) with 1%Q.
    change (series_sum (x :: col)) with (x + series_sum col)%Q.
    split; nra.
Qed.

Lemma series_mean_bounds (lo hi : Q) (col : list Q) :
  1 <= count col ->
  Forall (fun x => lo <= x /\ x <= hi)%Q col ->
  exists m, series_mean col = Some m /\ (lo <= m /\ m <= hi)%Q.
Proof.
  intros Hn Hall. unfold series_mean. rewrite float_div_by_count by assumption.
  eexists. split; [reflexivity|].
  destruct (series_sum_bounds lo hi col Hall) as [Hlo Hhi].
  assert (Hp : (0 < inject_Z (count col))%Q)
    by (change 0%Q with (inject_Z 0); rewrite <- Zlt_Qlt; lia).
  split; [now apply Qle_shift_div_l | now apply Qle_shift_div_r].
Qed.

Lemma rate_leb_total (a b : option Q) :
  rate_leb a b = true \/ rate_leb b a = true.
Proof.
  destruct a as [x|], b as [y|]; simpl; auto.
  destruct (Qlt_le_dec y x) as [H|H].
  - right. apply Qle_bool_iff. now apply Qlt_le_weak.
  - left. now apply Qle_bool_iff.
Qed.

(** X10. When every rating of the filtered table lies between two whole
    numbers, every category that occurs in it has a defined mean rating in
    the view, and the mean, rounded to two decimals, lies between the same
    two numbers; the plotted frame holds the same rows in ascending order of
    mean. *)
Theorem ratings_within_bounds (t : DataFrame) (lo hi : Z) :
  Forall (fun r : Row => inject_Z lo <= Rating r /\ Rating r <= inject_Z hi)%Q
         t ->
  map fst (ratings t) = group_keys Category t
  /\ Permutation (ratings_sorted t) (ratings t)
  /\ Sorted (fun a b => rate_leb (snd a) (snd b) = true) (ratings_sorted t)
  /\ Forall (fun row => exists m, snd row = Some m
                                  /\ (inject_Z lo <= m /\ m <= inject_Z hi)%Q)
            (ratings_sorted t).
Proof.
  intros Hall.
  split.
  { unfold ratings. rewrite map_map. simpl. apply groupby_keys. }
  split; [apply sort_perm|].
  split.
  { unfold ratings_sorted. apply sort_sorted. intros a b. apply rate_leb_total. }
  apply (Permutation_Forall
           (Permutation_sym (sort_perm _ (ratings t)))).
  unfold ratings. apply Forall_map. simpl.
  apply Forall_forall. intros g Hg.
  pose proof (proj1 (Forall_forall _ _) (groupby_nonempty Category t) g Hg)
    as Hn. simpl in Hn.
  assert (Hgrp : Forall (fun x => inject_Z lo <= x /\ x <= inject_Z hi)%Q
                        (column Rating (snd g))).
  { unfold groupby in Hg. apply in_map_iff in Hg as (k & <- & _). simpl.
    unfold column. apply Forall_map. apply Forall_forall. intros r Hr.
    apply filter_In in Hr as [Hr _].
    exact (proj1 (Forall_forall _ _) Hall r Hr). }
  destruct (series_mean_bounds (inject_Z lo) (inject_Z hi)
              (column Rating (snd g))) as (m & -> & Hlo & Hhi);
    [now rewrite count_column | exact Hgrp |].
  exists (round_nd 2 m). split; [reflexivity|]. split.
  - rewrite <- (round_nd_int 2 lo). now apply round_nd_mono.
  - rewrite <- (round_nd_int 2 hi). now apply round_nd_mono.
Qed.

Lemma ratings_within_bounds_witness :
  Forall (fun row => exists m, snd row = Some m
                               /\ (inject_Z 4 <= m /\ m <= inject_Z 4)%Q)
         (ratings_sorted example_table).
Proof.
  apply (ratings_within_bounds example_table 4 4).
  repeat constructor; vm_compute; discriminate.
Defined.

(** ** Day-of-week view of a loaded table *)

Lemma day_name_in_dow_order (d : date) : In (day_name d) dow_order.
Proof.
  unfold day_name. apply nth_In. simpl List.length.
  pose proof (Z.mod_pos_bound (d + 3) 7). lia.
Qed.

Lemma dow_order_NoDup : NoDup dow_order.
Proof.
  unfold dow_order.
  repeat (constructor; [simpl; intuition discriminate|]). constructor.
Qed.

Lemma dow_rows (t : DataFrame) : dow t = map (dow_row t) dow_order.
Proof.
  unfold dow, reindex. apply map_ext. intros d.
  unfold groupby. rewrite map_map. simpl.
  rewrite (find_by_key
             (fun k =>
                (count (column OrderID
                          (filter (fun r => String.eqb (DayOfWeek r) k) t)),
                 series_sum
                   (column Revenue
                      (filter (fun r => String.eqb (DayOfWeek r) k) t))))).
  rewrite existsb_keys_column. unfold dow_row.
  destruct (existsb (String.eqb d) (column DayOfWeek t)); simpl;
    [|reflexivity].
  now rewrite count_column.
Qed.

Lemma filter_absent_key (key : Row -> string) (t : DataFrame) (k : string) :
  existsb (String.eqb k) (column key t) = false ->
  filter (fun r => String.eqb (key r) k) t = [].
Proof.
  intros H. apply filter_none_in. intros r Hr.
  destruct (String.eqb_spec (key r) k) as [E|E]; [|reflexivity].
  assert (Hin : existsb (String.eqb k) (column key t) = true)
    by (apply existsb_eqb_In; subst k; now apply in_column).
  congruence.
Qed.

Lemma fdf_loaded_rows (file_rows : list Order) (s : FilterSpec) (r : Row) :
  In r (fdf (load_data file_rows) s) ->
  exists o, In o file_rows /\ r = load_row o.
Proof.
  rewrite fdf_filter. intros H. apply filter_In in H as [H _].
  unfold load_data in H. apply in_map_iff in H as (o & <- & Ho). now exists o.
Qed.

(** X11. Whatever the file holds and whatever is selected, the seven rows
    of the day-of-week view account for every filtered order: their order
    counts add up to the number of filtered orders and their revenues to the
    total revenue, days without orders adding nothing. *)
Theorem dow_accounts_for_every_order (file_rows : list Order)
  (s : FilterSpec) :
  dow_total_orders (dow (fdf (load_data file_rows) s))
  = total_orders (fdf (load_data file_rows) s)
  /\ (dow_total_revenue (dow (fdf (load_data file_rows) s))
      == total_rev (fdf (load_data file_rows) s))%Q.
Proof.
  set (t := fdf (load_data file_rows) s).
  assert (Hcov : forall r, In r t -> In (DayOfWeek r) dow_order).
  { intros r Hr. apply fdf_loaded_rows in Hr as (o & _ & ->). simpl.
    apply day_name_in_dow_order. }
  pose proof (partition_cover String.eqb String.eqb_eq
                (fun r : Row => DayOfWeek r) dow_order t dow_order_NoDup Hcov)
    as Hpart.
  unfold dow_total_orders, dow_total_revenue. rewrite dow_rows, !map_map.
  split.
  - unfold total_orders, count at 1. rewrite <- (Permutation_length Hpart).
    fold (count (List.concat
                   (map (fun k => filter (fun r : Row =>
                                            String.eqb (DayOfWeek r) k) t)
                        dow_order))).
    rewrite count_concat, map_map. f_equal. apply map_ext. intros d.
    unfold dow_row.
    destruct (existsb (String.eqb d) (column DayOfWeek t)) eqn:E; simpl;
      [reflexivity|].
    now rewrite (filter_absent_key DayOfWeek t d E).
  - unfold total_rev, column.
    rewrite <- (series_sum_perm _ _ (Permutation_map _ Hpart)).
    rewrite series_sum_concat, map_map.
    assert (Hext : forall d,
      (match dow_Revenue (dow_row t d) with Some q => q | None => 0%Q end)
      = series_sum (map (fun r : Row => Revenue r)
                        (filter (fun r : Row => String.eqb (DayOfWeek r) d) t))).
    { intros d. unfold dow_row.
      destruct (existsb (String.eqb d) (column DayOfWeek t)) eqn:E; simpl;
        [reflexivity|].
      now rewrite (filter_absent_key DayOfWeek t d E). }
    rewrite (map_ext _ _ Hext). reflexivity.
Qed.

(** ** Raw-data table *)

Lemma display_df_literal (float_str : Q -> string) (t : DataFrame)
  (search : string) :
  is_literal search = true ->
  display_df float_str t search
  = Some (filter (literal_mask float_str search) t).
Proof.
  intros H. destruct search as [|c s].
  - simpl. f_equal. symmetry. apply filter_all. intros r _.
    unfold literal_mask, astype_str. cbn [existsb lower].
    now rewrite is_substring_empty.
  - unfold display_df.
    rewrite (map_ext_in (row_mask float_str (String c s))
               (fun r => Some (literal_mask float_str (String c s) r)))
      by (intros r _; now apply row_mask_literal).
    rewrite sequence_map_Some. simpl. now rewrite boolean_index_map.
Qed.

Lemma firstn_filter_subseq {A : Type} (p : A -> bool) (n : nat) (l : list A) :
  subseq (firstn n (filter p l)) l.
Proof.
  revert n. induction l as [|x l IH]; intros n; simpl.
  - rewrite firstn_nil. constructor.
  - destruct (p x).
    + destruct n as [|n]; simpl.
      * apply subseq_skip. apply (IH 0%nat).
      * apply subseq_keep. apply IH.
    + apply subseq_skip. apply IH.
Qed.

(** X12. For a search term without regular-expression characters: with
    the empty term the raw-data table shows the first [n_rows] rows of the
    filtered table; with a term and an empty filtered table the page raises
    [KeyError]; with a term and a filtered table that has rows it shows the
    first [n_rows] rows that match, in table order, never more than
    [n_rows] rows, and all of them when no more match. *)
Theorem raw_table_rows (float_str : Q -> string) (t : DataFrame)
  (search : string) (n_rows : nat) :
  is_literal search = true ->
  (search = EmptyString ->
   raw_table float_str t search n_rows = Some (Shown (firstn n_rows t)))
  /\ (search <> EmptyString -> t = [] ->
      raw_table float_str t search n_rows = Some KeyError)
  /\ (search = EmptyString \/ t <> [] ->
      exists shown,
        raw_table float_str t search n_rows = Some (Shown shown)
        /\ shown = firstn n_rows (filter (literal_mask float_str search) t)
        /\ (List.length shown <= n_rows)%nat
        /\ List.length shown
           = Nat.min n_rows
                     (List.length (filter (literal_mask float_str search) t))
        /\ subseq shown t).
Proof.
  intros H. split; [|split].
  - intros ->. reflexivity.
  - intros Hs ->. destruct search as [|c s]; [contradiction|].
    unfold raw_table. now rewrite H.
  - intros Hcase.
    exists (firstn n_rows (filter (literal_mask float_str search) t)).
    split.
    + assert (E : raw_table float_str t search n_rows
                  = option_map (fun d => Shown (head n_rows d))
                               (display_df float_str t search)).
      { destruct search as [|c s]; [reflexivity|].
        destruct t as [|r t]; [|reflexivity].
        destruct Hcase as [Hs|Ht]; [discriminate | contradiction]. }
      rewrite E, (display_df_literal float_str t search H). reflexivity.
    + split; [reflexivity|].
      split; [rewrite length_firstn; lia|].
      split; [apply length_firstn | apply firstn_filter_subseq].
Qed.

Lemma raw_table_rows_witness :
  raw_table repr_float example_table "electronics" 1
  = Some (Shown [sample_row "Electronics" (datetime 2022 3 7) 100 "UPI" 0]).
Proof.
  destruct (raw_table_rows repr_float example_table "electronics" 1 eq_refl)
    as (_ & _ & H).
  destruct H as (shown & -> & -> & _); [right; discriminate|].
  reflexivity.
Defined.

(** A term typed while the filters leave no order. *)
Example search_on_empty_table :
  raw_table repr_float (fdf example_table (all_selected [])) "laptop" 10
  = Some KeyError
  /\ raw_table repr_float (fdf example_table (all_selected [])) EmptyString 10
     = Some (Shown []).
Proof. split; vm_compute; reflexivity. Qed.

(** ** KPI cards on non-empty and on well-formed tables *)

Lemma series_sum_nonneg (col : list Q) :
  Forall (fun x => 0 <= x)%Q col -> (0 <= series_sum col)%Q.
Proof.
  induction 1 as [|x col Hx _ IH]; simpl; [apply Qle_refl | lra].
Qed.

Lemma series_sum_le {A : Type} (f g : A -> Q) (l : list A) :
  Forall (fun x => f x <= g x)%Q l ->
  (series_sum (map f l) <= series_sum (map g l))%Q.
Proof.
  induction 1 as [|x l Hx _ IH]; simpl; [apply Qle_refl | lra].
Qed.

(** X13. On a table in which every order has a profit between 0 and its
    revenue, the profit-margin card shows a value between 0 and 100. *)
Theorem profit_margin_percentage (t : DataFrame) :
  Forall (fun r : Row => 0 <= Profit r /\ Profit r <= Revenue r)%Q t ->
  (0 <= profit_margin t /\ profit_margin t <= 100)%Q.
Proof.
  intros Hall.
  assert (Hp : (0 <= total_profit t)%Q).
  { unfold total_profit, column. apply series_sum_nonneg, Forall_map.
    eapply Forall_impl; [|exact Hall]. intros r [H _]. exact H. }
  assert (Hle : (total_profit t <= total_rev t)%Q).
  { unfold total_profit, total_rev, column. apply series_sum_le.
    eapply Forall_impl; [|exact Hall]. intros r [_ H]. exact H. }
  unfold profit_margin, Qlt_bool.
  destruct (Qle_bool (total_rev t) 0) eqn:E; simpl; [split; lra|].
  assert (Hr : (0 < total_rev t)%Q).
  { apply Qnot_le_lt. intros H. apply Qle_bool_iff in H. congruence. }
  assert (H0 : (0 <= total_profit t / total_rev t)%Q)
    by (apply Qle_shift_div_l; [assumption | now rewrite Qmult_0_l]).
  assert (H1 : (total_profit t / total_rev t <= 1)%Q)
    by (apply Qle_shift_div_r; [assumption | now rewrite Qmult_1_l]).
  split; lra.
Qed.

Lemma profit_margin_percentage_witness :
  (0 <= profit_margin example_table /\ profit_margin example_table <= 100)%Q.
Proof.
  apply (profit_margin_percentage example_table).
  repeat constructor; vm_compute; discriminate.
Defined.

(** X14. On a non-empty filtered table the average-order card has a value:
    the total revenue divided by the number of orders, so that the average
    times the number of orders gives the total revenue back. *)
Theorem avg_order_defined (t : DataFrame) :
  t <> [] ->
  avg_order t = Some (total_rev t / inject_Z (total_orders t))%Q
  /\ (total_rev t / inject_Z (total_orders t) * inject_Z (total_orders t)
      == total_rev t)%Q.
Proof.
  intros Hne.
  assert (Hn : 1 <= total_orders t).
  { unfold total_orders, count. destruct t; [congruence | simpl; lia]. }
  split.
  - unfold avg_order, series_mean, total_rev. rewrite count_column.
    now apply float_div_by_count.
  - field. intros E. unfold Qeq in E. simpl in E. lia.
Qed.

Lemma avg_order_defined_witness :
  avg_order example_table = Some (350 # 3)%Q.
Proof.
  destruct (avg_order_defined example_table ltac:(discriminate)) as [-> _].
  reflexivity.
Defined.

(** ** Sidebar counters *)

Lemma unique_length_le (l : list string) :
  (List.length (unique l) <= List.length l)%nat.
Proof.
  apply NoDup_incl_length; [apply unique_NoDup|].
  intros x. apply unique_In.
Qed.

(** X15. The sidebar never counts more distinct cities or products than
    orders, and it counts no city and no product exactly when no order is
    selected. *)
Theorem sidebar_counts_bounds (t : DataFrame) :
  sidebar_counts t
  = (total_orders t, nunique (column City t), nunique (column Product t))
  /\ 0 <= nunique (column City t) <= total_orders t
  /\ 0 <= nunique (column Product t) <= total_orders t
  /\ (nunique (column City t) = 0 <-> t = [])
  /\ (nunique (column Product t) = 0 <-> t = []).
Proof.
  assert (Hle : forall f : Row -> string,
            0 <= nunique (column f t) <= total_orders t).
  { intros f. unfold nunique, total_orders.
    rewrite <- (count_column f t). unfold count.
    pose proof (unique_length_le (column f t)). lia. }
  assert (Hz : forall f : Row -> string,
            nunique (column f t) = 0 <-> t = []).
  { intros f. unfold nunique, count. split.
    - destruct t as [|r t']; [reflexivity|]. simpl. lia.
    - intros ->. reflexivity. }
  split; [reflexivity|].
  split; [apply Hle|]. split; [apply Hle|].
  split; apply Hz.
Qed.

(** ** The generator: field by field *)

Section GeneratorFacts.

Context {R : NumpyRandom}.

Ltac pick_with x H Hne :=
  match goal with
  | |- context [np_choice ?d ?l ?p ?s] =>
      pose proof (np_choice_In d l p s Hne) as H;
      destruct (np_choice d l p s) as [x ?]; cbn [fst] in H
  end.

Ltac pick x H :=
  match goal with
  | |- context [np_choice ?d ?l ?p ?s] =>
      pose proof (np_choice_In d l p s ltac:(discriminate)) as H;
      destruct (np_choice d l p s) as [x ?]; cbn [fst] in H
  end.

Ltac pick_uniform x H :=
  match goal with
  | |- context [uniform ?lo ?hi ?s] =>
      pose proof (uniform_range lo hi s) as H;
      destruct (uniform lo hi s) as [x ?]; cbn [fst] in H
  end.

Lemma gen_record_drawn (i : Z) (d : date) (s : rng_state) :
  record_drawn d (fst (gen_record i d s)).
Proof.
  unfold gen_record, bind, ret.
  pick category Hcat.
  assert (Hinfo : products (category_info category) <> []
                  /\ fst (price_range (category_info category))
                     <= snd (price_range (category_info category))).
  { simpl in Hcat.
    repeat (destruct Hcat as [<-|Hcat];
            [cbn; split; [discriminate | lia]|]).
    contradiction. }
  destruct Hinfo as (Hprods & Hrange).
  pick_with product Hprod Hprods.
  destruct (price_range (category_info category)) as [lo hi] eqn:Epr.
  cbn [fst snd] in Hrange.
  pick_uniform u Hu.
  destruct Hu as [Hu1 Hu2]; [now rewrite <- Zle_Qle|].
  pick qty Hqty. pick discount Hdisc.
  pick_uniform m Hm.
  destruct Hm as [Hm1 Hm2]; [unfold Qle; simpl; lia|].
  pick region Hreg.
  assert (Hcities : cities_of region <> []).
  { simpl in Hreg.
    repeat (destruct Hreg as [<-|Hreg]; [discriminate|]). contradiction. }
  pick_with city Hcity Hcities.
  pick channel Hchan. pick payment Hpay.
  pick rating Hrat. pick returned Hret.
  cbn [fst]. unfold record_drawn.
  cbn [OrderID Date Month Quarter Year Category Product UnitPrice Quantity
       Discount Revenue Profit Region City Channel PaymentMethod Rating
       Returned].
  rewrite Epr. cbn [fst snd].
  repeat (split; [first [reflexivity | assumption]|]);
    try assumption.
  - split; [now exists i|].
    split; [assumption|]. split; [assumption|].
    split; [now exists u|].
    split; [assumption|]. split; [assumption|]. split; [reflexivity|].
    split; [now exists m|].
    split; [assumption|]. split; [assumption|]. split; [assumption|].
    split; [assumption|]. split; [now exists rating | assumption].
Qed.

Lemma gen_records_drawn (dates : list date) (i : Z) (s : rng_state) :
  Forall2 record_drawn dates (fst (gen_records i dates s)).
Proof.
  revert i s. induction dates as [|d dates IH]; intros i s; [constructor|].
  cbn [gen_records]. unfold bind, ret.
  pose proof (gen_record_drawn i d s) as Hr.
  destruct (gen_record i d s) as [r s1]. cbn [fst] in Hr.
  pose proof (IH (i + 1) s1) as Hall.
  destruct (gen_records (i + 1) dates s1) as [rest s2]. cbn [fst] in *.
  now constructor.
Qed.

Lemma Forall2_drawn_in_window (dates : list date) (records : list Order) :
  Forall (fun d => START_DATE <= d <= END_DATE) dates ->
  Forall2 record_drawn dates records ->
  Forall (fun r => START_DATE <= Date r <= END_DATE /\ record_drawn (Date r) r)
         records.
Proof.
  intros Hwin H. induction H as [|d r dates records Hr _ IH];
    constructor.
  - inversion Hwin as [|? ? Hd0 _]; subst. destruct Hr as [Hd Hrest].
    subst d. split; [assumption|]. split; [reflexivity | exact Hrest].
  - apply IH. now inversion Hwin.
Qed.

(** Every record of a run carries a date of the window and the fields the
    loop body drew for that date. *)
Lemma generate_drawn (s0 : rng_state) :
  Forall (fun r => START_DATE <= Date r <= END_DATE /\ record_drawn (Date r) r)
         (fst (generate s0))
  /\ List.length (fst (generate s0)) = N_ORDERS.
Proof.
  unfold generate, bind, np_seed.
  destruct (gen_dates_ok N_ORDERS (seeded 42)) as [Hlen Hwin].
  destruct (gen_dates N_ORDERS (seeded 42)) as [dates s1]. cbn [fst] in *.
  pose proof (sort_perm Z.leb dates) as Hperm.
  pose proof (gen_records_drawn (sort Z.leb dates) 0 s1) as Hall.
  split.
  - apply (Forall2_drawn_in_window (sort Z.leb dates)); [|exact Hall].
    apply (Permutation_Forall (Permutation_sym Hperm) Hwin).
  - rewrite <- (Forall2_length Hall), <- Hlen.
    exact (Permutation_length Hperm).
Qed.

End GeneratorFacts.

(** ** The calendar on the generation window *)

Lemma window_checked :
  forallb window_check
          (map (fun k => add_days START_DATE (Z.of_nat k)) (seq 0 1096))
  = true.
Proof. vm_compute. reflexivity. Qed.

Lemma window_check_holds (t : date) :
  START_DATE <= t <= END_DATE -> window_check t = true.
Proof.
  intros H. pose proof window_checked as Hc.
  rewrite forallb_forall in Hc. apply Hc.
  apply in_map_iff. exists (Z.to_nat (t - START_DATE)). split.
  - unfold add_days. lia.
  - apply in_seq. rewrite <- window_end in H. unfold add_days in H.
    change total_days with 1095 in H. lia.
Qed.

Lemma window_calendar_facts (t : date) :
  START_DATE <= t <= END_DATE ->
  In (year t) [2022; 2023; 2024]
  /\ 1 <= month t <= 12
  /\ datetime (year t) (month t) (day t) = t
  /\ In (quarter_label t) window_quarters.
Proof.
  intros H. apply window_check_holds in H. unfold window_check in H.
  rewrite !andb_true_iff in H. destruct H as ((((Hy & Hm1) & Hm2) & Hd) & Hq).
  apply existsb_Zeqb_In in Hy. apply existsb_eqb_In in Hq.
  apply Z.leb_le in Hm1, Hm2. apply Z.eqb_eq in Hd. auto.
Qed.

(** ** Bounds on the generated amounts *)

Lemma round_nd_idem (n : nat) (x : Q) :
  (round_nd n (round_nd n x) == round_nd n x)%Q.
Proof. unfold round_nd at 2 3. apply round_nd_fixed. Qed.

(** A rounded price times a whole quantity needs no further rounding. *)
Lemma round_nd_times_int (n : nat) (x : Q) (q : Z) :
  (round_nd n (round_nd n x * inject_Z q) == round_nd n x * inject_Z q)%Q.
Proof.
  pose proof (pow10_pos n) as Hp.
  assert (Hne : ~ (inject_Z (10 ^ Z.of_nat n) == 0)%Q)
    by (intros E; rewrite E in Hp; now apply (Qlt_irrefl 0)).
  assert (E : (round_nd n x * inject_Z q
               == inject_Z (rint (x * inject_Z (10 ^ Z.of_nat n)) * q)
                  / inject_Z (10 ^ Z.of_nat n))%Q).
  { unfold round_nd. rewrite inject_Z_mult. field. exact Hne. }
  rewrite (round_nd_proper n _ _ E), round_nd_fixed. now rewrite E.
Qed.

Lemma half_cent : ((1 # 2) / inject_Z (10 ^ Z.of_nat 2) == 1 # 200)%Q.
Proof. reflexivity. Qed.

Lemma discount_factor_bounds (d : Z) :
  In d [0; 5; 10; 15; 20; 25] ->
  (3 # 4 <= 1 - inject_Z d / 100 /\ 1 - inject_Z d / 100 <= 1)%Q.
Proof.
  simpl. intros H.
  repeat (destruct H as [<-|H]; [split; vm_compute; discriminate|]).
  contradiction.
Qed.

Lemma quantity_values (q : Z) : In q [1; 1; 1; 2; 2; 3] -> In q [1; 2; 3].
Proof. simpl. intuition. Qed.

Lemma drawn_price_bounds (d : date) (r : Order) :
  record_drawn d r ->
  (inject_Z (fst (price_range (category_info (Category r)))) <= UnitPrice r
   /\ UnitPrice r <= inject_Z (snd (price_range (category_info (Category r))))
   /\ 10 <= UnitPrice r)%Q.
Proof.
  intros (_ & _ & _ & _ & _ & Hcat & _ & (u & -> & Hlo & Hhi) & _).
  assert (H1 : (inject_Z (fst (price_range (category_info (Category r))))
                <= round_nd 2 u)%Q)
    by (rewrite <- (round_nd_int 2); now apply round_nd_mono).
  assert (H2 : (round_nd 2 u
                <= inject_Z (snd (price_range (category_info (Category r)))))%Q)
    by (rewrite <- (round_nd_int 2 (snd _)); now apply round_nd_mono).
  split; [exact H1|]. split; [exact H2|].
  apply Qle_trans with
    (inject_Z (fst (price_range (category_info (Category r))))); [|exact H1].
  change 10%Q with (inject_Z 10). rewrite <- Zle_Qle.
  simpl in Hcat.
  repeat (destruct Hcat as [<-|Hcat]; [cbn; lia|]). contradiction.
Qed.

Lemma drawn_revenue_bounds (d : date) (r : Order) :
  record_drawn d r ->
  (15 # 2 <= Revenue r
   /\ Revenue r <= UnitPrice r * inject_Z (Quantity r)
   /\ (3 # 4) * (UnitPrice r * inject_Z (Quantity r)) - (1 # 200)
      <= Revenue r)%Q.
Proof.
  intros Hr. destruct (drawn_price_bounds d r Hr) as (_ & _ & Hp).
  destruct Hr as (_ & _ & _ & _ & _ & _ & _ & (u & Hu & _) & Hq & Hd & Hrev & _).
  destruct (discount_factor_bounds _ Hd) as [Hf1 Hf2].
  assert (Hq1 : (1 <= inject_Z (Quantity r))%Q).
  { change 1%Q with (inject_Z 1). rewrite <- Zle_Qle.
    apply quantity_values in Hq. simpl in Hq. lia. }
  set (f := (1 - inject_Z (Discount r) / 100)%Q) in *.
  set (A := (UnitPrice r * inject_Z (Quantity r))%Q) in *.
  assert (HA : (10 <= A)%Q) by (unfold A; nra).
  rewrite Hrev. split; [|split].
  - setoid_replace (15 # 2)%Q with (round_nd 2 (15 # 2)) by reflexivity.
    apply round_nd_mono. nra.
  - assert (E : (round_nd 2 A == A)%Q)
      by (unfold A; rewrite Hu; apply round_nd_times_int).
    apply Qle_trans with (round_nd 2 A);
      [apply round_nd_mono; nra | apply Qle_lteq; right; exact E].
  - destruct (round_nd_error 2 (A * f)) as [_ Herr].
    rewrite half_cent in Herr. nra.
Qed.

Lemma drawn_profit_bounds (d : date) (r : Order) :
  record_drawn d r ->
  (0 < Profit r
   /\ Profit r <= Revenue r
   /\ (15 # 100) * Revenue r - (1 # 200) <= Profit r
   /\ Profit r <= (40 # 100) * Revenue r + (1 # 200))%Q.
Proof.
  intros Hr. destruct (drawn_revenue_bounds d r Hr) as (Hrev & _).
  destruct Hr as (_ & _ & _ & _ & _ & _ & _ & _ & _ & _ & Erev
                  & (m & Hm1 & Hm2 & Hprof) & _).
  destruct (round_nd_error 2 (Revenue r * m)) as [Hlo Hhi].
  rewrite half_cent in Hlo, Hhi. rewrite <- Hprof in Hlo, Hhi.
  assert (Hle : (Profit r <= Revenue r)%Q).
  { rewrite Hprof.
    assert (E : (round_nd 2 (Revenue r) == Revenue r)%Q)
      by (rewrite Erev; apply round_nd_idem).
    apply Qle_trans with (round_nd 2 (Revenue r));
      [apply round_nd_mono; nra | apply Qle_lteq; right; exact E]. }
  split; [nra|]. split; [exact Hle|]. split; nra.
Qed.

Section GeneratedRecords.

Context {R : NumpyRandom}.

(** X16. Every generated record takes its quantity, discount, region,
    channel, payment method, rating and returned flag from the fixed sets of
    the script, and its category from the catalogue. *)
Theorem generated_domains (s0 : rng_state) :
  Forall (fun r =>
            In (Category r) (keys CATEGORIES)
            /\ In (Quantity r) [1; 2; 3]
            /\ In (Discount r) [0; 5; 10; 15; 20; 25]
            /\ In (Region r) REGIONS
            /\ In (Channel r) CHANNELS
            /\ In (PaymentMethod r) PAYMENT
            /\ In (Returned r) [0; 1]
            /\ exists x : Q,
                 In x [3 # 1; 35 # 10; 4 # 1; 45 # 10; 5 # 1]%Q
                 /\ (Rating r == x)%Q)
         (fst (generate s0)).
Proof.
  eapply Forall_impl; [|exact (proj1 (generate_drawn s0))].
  intros r (_ & _ & _ & _ & _ & _ & Hcat & _ & _ & Hq & Hd & _ & _ & Hreg & _
            & Hch & Hpay & (x & Hx & Hrat) & Hret).
  repeat (split; [first [assumption | now apply quantity_values]|]).
  exists x. split; [assumption|]. rewrite Hrat. simpl in Hx.
  repeat (destruct Hx as [<-|Hx]; [reflexivity|]). contradiction.
Qed.

(** X17. Every generated unit price is an amount in whole cents inside the
    price range of the record's category, bounds included. *)
Theorem generated_price_in_range (s0 : rng_state) :
  Forall (fun r =>
            (inject_Z (fst (price_range (category_info (Category r))))
             <= UnitPrice r)%Q
            /\ (UnitPrice r
                <= inject_Z (snd (price_range (category_info (Category r)))))%Q
            /\ exists cents : Z, UnitPrice r = (inject_Z cents / 100)%Q)
         (fst (generate s0)).
Proof.
  eapply Forall_impl; [|exact (proj1 (generate_drawn s0))].
  intros r (_ & Hr).
  destruct (drawn_price_bounds _ _ Hr) as (Hlo & Hhi & _).
  split; [exact Hlo|]. split; [exact Hhi|].
  destruct Hr as (_ & _ & _ & _ & _ & _ & _ & (u & Hu & _) & _).
  exists (rint (u * inject_Z (10 ^ Z.of_nat 2))). rewrite Hu. reflexivity.
Qed.

(** X18. Every generated revenue is at least 7.50, at most the unit price
    times the quantity, and at least three quarters of that amount less half
    a cent: no discount exceeds 25 percent. *)
Theorem generated_revenue_bounds (s0 : rng_state) :
  Forall (fun r =>
            (15 # 2 <= Revenue r
             /\ Revenue r <= UnitPrice r * inject_Z (Quantity r)
             /\ (3 # 4) * (UnitPrice r * inject_Z (Quantity r)) - (1 # 200)
                <= Revenue r)%Q)
         (fst (generate s0)).
Proof.
  eapply Forall_impl; [|exact (proj1 (generate_drawn s0))].
  intros r (_ & Hr). exact (drawn_revenue_bounds _ _ Hr).
Qed.

(** X19. Every generated profit is positive, at most the revenue, and within
    half a cent of a share of the revenue between 15 and 40 percent. *)
Theorem generated_profit_bounds (s0 : rng_state) :
  Forall (fun r =>
            (0 < Profit r
             /\ Profit r <= Revenue r
             /\ (15 # 100) * Revenue r - (1 # 200) <= Profit r
             /\ Profit r <= (40 # 100) * Revenue r + (1 # 200))%Q)
         (fst (generate s0)).
Proof.
  eapply Forall_impl; [|exact (proj1 (generate_drawn s0))].
  intros r (_ & Hr). exact (drawn_profit_bounds _ _ Hr).
Qed.

(** X20. In every generated record the year, month label and quarter label
    are those of the record's date; the year is 2022, 2023 or 2024, the
    quarter label one of the twelve of the window, and the date is the day
    number of its own year, month and day. *)
Theorem generated_calendar_fields (s0 : rng_state) :
  Forall (fun r =>
            Year r = year (Date r)
            /\ Month r = strftime_month (Date r)
            /\ Quarter r = quarter_label (Date r)
            /\ In (Year r) [2022; 2023; 2024]
            /\ In (Quarter r) window_quarters
            /\ 1 <= month (Date r) <= 12
            /\ datetime (Year r) (month (Date r)) (day (Date r)) = Date r)
         (fst (generate s0)).
Proof.
  eapply Forall_impl; [|exact (proj1 (generate_drawn s0))].
  intros r (Hwin & _ & Hm & Hq & Hy & _).
  destruct (window_calendar_facts _ Hwin) as (Hy' & Hmo & Hrt & Hq').
  rewrite Hy, Hq. auto 10.
Qed.

End GeneratedRecords.

(** ** The shape of the file written *)

Lemma count_char_app (c : ascii) (a b : string) :
  count_char c (a ++ b) = (count_char c a + count_char c b)%nat.
Proof.
  induction a as [|x a IH]; simpl; [reflexivity | rewrite IH; lia].
Qed.

Lemma plain_cellb_iff (s : string) : plain_cellb s = true <-> plain_cell s.
Proof.
  unfold plain_cellb, plain_cell. rewrite !andb_true_iff, !Nat.eqb_eq. tauto.
Qed.

Lemma plain_app (a b : string) :
  plain_cell a -> plain_cell b -> plain_cell (a ++ b).
Proof.
  unfold plain_cell. rewrite !count_char_app. lia.
Qed.

Lemma plain_in (l : list string) (s : string) :
  forallb plain_cellb l = true -> In s l -> plain_cell s.
Proof.
  intros H Hs. rewrite forallb_forall in H. now apply plain_cellb_iff, H.
Qed.

Lemma plain_uint (u : Decimal.uint) : plain_cell (NilEmpty.string_of_uint u).
Proof.
  induction u; simpl;
    try (change (String ?c ?s) with (String c EmptyString ++ s)%string);
    first [ now repeat split
          | apply (plain_app (String _ EmptyString)); [now repeat split | assumption] ].
Qed.

Lemma plain_str_int (z : Z) : plain_cell (str_int z).
Proof.
  unfold str_int, NilEmpty.string_of_int.
  destruct (Z.to_int z) as [u|u]; [apply plain_uint|].
  apply (plain_app "-"); [now repeat split | apply plain_uint].
Qed.

Lemma plain_zero_pad (width : nat) (s : string) :
  plain_cell s -> plain_cell (zero_pad width s).
Proof.
  revert s. induction width as [|w IH]; intros s Hs; simpl; [assumption|].
  destruct (String.length s <? S w)%nat; [|assumption].
  apply IH. apply (plain_app "0"); [now repeat split | assumption].
Qed.

Lemma plain_repr_float (x : Q) : plain_cell (repr_float x).
Proof.
  unfold repr_float.
  apply plain_app; [apply plain_str_int|].
  apply (plain_app "."); [now repeat split|].
  destruct (_ =? 0); [apply plain_str_int|].
  apply plain_zero_pad, plain_str_int.
Qed.

Lemma plain_strftime_iso (t : date) : plain_cell (strftime_iso t).
Proof.
  unfold strftime_iso.
  repeat first [ apply plain_zero_pad | apply plain_str_int
               | apply plain_app | now repeat split ].
Qed.

Lemma plain_month_abbr (m : Z) : plain_cell (month_abbr m).
Proof.
  unfold month_abbr.
  destruct (nth_in_or_default (Z.to_nat (m - 1))
              ["Jan"; "Feb"; "Mar"; "Apr"; "May"; "Jun";
               "Jul"; "Aug"; "Sep"; "Oct"; "Nov"; "Dec"]%string
              ""%string) as [H| ->]; [|now repeat split].
  revert H. apply plain_in. reflexivity.
Qed.

Lemma plain_strftime_month (t : date) : plain_cell (strftime_month t).
Proof.
  unfold strftime_month.
  repeat first [ apply plain_month_abbr | apply plain_zero_pad
               | apply plain_str_int | apply plain_app | now repeat split ].
Qed.

Lemma plain_quarter_label (t : date) : plain_cell (quarter_label t).
Proof.
  unfold quarter_label.
  repeat first [ apply plain_str_int | apply plain_app | now repeat split ].
Qed.

Lemma drawn_product_in_catalogue (d : date) (r : Order) :
  record_drawn d r -> In (Product r) catalogue_products.
Proof.
  intros (_ & _ & _ & _ & _ & Hcat & Hprod & _).
  simpl in Hcat.
  repeat (destruct Hcat as [E|Hcat];
          [rewrite <- E in Hprod; cbn in Hprod;
           unfold catalogue_products; cbn; tauto|]).
  contradiction.
Qed.

Lemma drawn_city_known (d : date) (r : Order) :
  record_drawn d r -> In (City r) all_cities.
Proof.
  intros (_ & _ & _ & _ & _ & _ & _ & _ & _ & _ & _ & _ & Hreg & Hcity & _).
  simpl in Hreg.
  repeat (destruct Hreg as [E|Hreg];
          [rewrite <- E in Hcity; cbn in Hcity; unfold all_cities; cbn; tauto|]).
  contradiction.
Qed.

Lemma drawn_cells_plain (d : date) (r : Order) :
  record_drawn d r ->
  List.length (csv_cells r) = 18%nat /\ Forall plain_cell (csv_cells r).
Proof.
  intros Hr. split; [reflexivity|].
  pose proof (drawn_product_in_catalogue d r Hr) as Hprod.
  pose proof (drawn_city_known d r Hr) as Hcity.
  destruct Hr as (_ & Hm & Hq & _ & (i & Hid) & Hcat & _ & _ & _ & _ & _ & _
                  & Hreg & _ & Hch & Hpay & _).
  unfold csv_cells. rewrite Hm, Hq, Hid.
  repeat (constructor;
          [first [ apply plain_str_int | apply plain_repr_float
                 | apply plain_strftime_iso | apply plain_strftime_month
                 | apply plain_quarter_label
                 | apply (plain_app "ORD-");
                   [now repeat split | apply plain_str_int]
                 | eapply plain_in; [|eassumption]; reflexivity ]|]).
  constructor.
Qed.

Lemma join_counts (cells : list string) :
  Forall plain_cell cells ->
  count_char "," (join "," cells) = pred (List.length cells)
  /\ count_char (ascii_of_nat 10) (join "," cells) = O
  /\ count_char (ascii_of_nat 34) (join "," cells) = O.
Proof.
  induction 1 as [|x cells Hx Hall IH]; [now repeat split|].
  destruct cells as [|y cells].
  - simpl. destruct Hx as (H1 & H2 & H3 & _). auto.
  - change (join "," (x :: y :: cells))
      with (x ++ "," ++ join "," (y :: cells))%string.
    rewrite !count_char_app.
    destruct Hx as (H1 & H2 & H3 & _). destruct IH as (I1 & I2 & I3).
    rewrite H1, H2, H3, I1, I2, I3. now repeat split.
Qed.

Lemma concat_counts (c : ascii) (k : nat) (ls : list string) :
  Forall (fun l => count_char c l = k) ls ->
  count_char c (String.concat EmptyString ls) = (k * List.length ls)%nat.
Proof.
  induction 1 as [|l ls Hl Hall IH]; [simpl; lia|].
  destruct ls as [|l' ls].
  - simpl. lia.
  - change (String.concat EmptyString (l :: l' :: ls))
      with (l ++ EmptyString ++ String.concat EmptyString (l' :: ls))%string.
    rewrite !count_char_app, IH, Hl. simpl. lia.
Qed.

Lemma to_csv_counts (records : list Order) :
  Forall (fun r => Forall plain_cell (csv_cells r)) records ->
  count_char (ascii_of_nat 10) (to_csv records) = S (List.length records)
  /\ count_char "," (to_csv records) = (17 * S (List.length records))%nat
  /\ count_char (ascii_of_nat 34) (to_csv records) = O.
Proof.
  intros Hall.
  assert (Hlines : Forall (fun cells => List.length cells = 18%nat
                                        /\ Forall plain_cell cells)
                          (csv_header :: map csv_cells records)).
  { constructor.
    - split; [reflexivity|]. apply Forall_forall. intros s Hs.
      revert Hs. apply plain_in. reflexivity.
    - apply Forall_map. eapply Forall_impl; [|exact Hall].
      intros r Hr. split; [reflexivity | exact Hr]. }
  unfold to_csv.
  assert (Hlen : List.length
                   (map (fun cells => (join "," cells ++ newline)%string)
                        (csv_header :: map csv_cells records))
                 = S (List.length records))
    by (rewrite length_map; simpl; now rewrite length_map).
  split; [|split].
  - rewrite (concat_counts _ 1), Hlen; [lia|].
    apply Forall_map. eapply Forall_impl; [|exact Hlines].
    intros cells [_ Hc]. rewrite count_char_app.
    destruct (join_counts cells Hc) as (_ & -> & _). reflexivity.
  - rewrite (concat_counts _ 17), Hlen; [reflexivity|].
    apply Forall_map. eapply Forall_impl; [|exact Hlines].
    intros cells [Hl Hc]. rewrite count_char_app.
    destruct (join_counts cells Hc) as (-> & _). rewrite Hl. reflexivity.
  - rewrite (concat_counts _ 0), Hlen; [lia|].
    apply Forall_map. eapply Forall_impl; [|exact Hlines].
    intros cells [_ Hc]. rewrite count_char_app.
    destruct (join_counts cells Hc) as (_ & _ & ->). reflexivity.
Qed.

(** X21. The file a run writes has one line per record and one for the
    header, each line holding 18 fields: no cell contains a comma, a double
    quote or a line break, so the file has [N_ORDERS + 1] line ends,
    17 commas on every line and nothing to quote. *)
Theorem generated_csv_shape {R : NumpyRandom} (s0 : rng_state) :
  Forall (fun r => List.length (csv_cells r) = List.length csv_header
                   /\ Forall plain_cell (csv_cells r))
         (fst (generate s0))
  /\ count_char (ascii_of_nat 10) (sales_data_csv s0) = S N_ORDERS
  /\ count_char "," (sales_data_csv s0) = (17 * S N_ORDERS)%nat
  /\ count_char (ascii_of_nat 34) (sales_data_csv s0) = O.
Proof.
  destruct (generate_drawn s0) as [Hall Hlen].
  assert (Hcells : Forall (fun r => List.length (csv_cells r)
                                    = List.length csv_header
                                    /\ Forall plain_cell (csv_cells r))
                          (fst (generate s0))).
  { eapply Forall_impl; [|exact Hall].
    intros r (_ & Hr). exact (drawn_cells_plain _ _ Hr). }
  split; [exact Hcells|].
  unfold sales_data_csv. rewrite <- Hlen.
  apply to_csv_counts. eapply Forall_impl; [|exact Hcells].
  intros r [_ H]. exact H.
Qed.

(** ** The dashboard on a generated file *)

Lemma fdf_loaded_Forall (P : Order -> Prop) (file_rows : list Order)
  (s : FilterSpec) :
  Forall P file_rows ->
  Forall (fun r : Row => P r) (fdf (load_data file_rows) s).
Proof.
  intros H. apply Forall_forall. intros r Hr.
  apply fdf_loaded_rows in Hr as (o & Ho & ->). simpl.
  exact (proj1 (Forall_forall _ _) H o Ho).
Qed.

Lemma series_sum_scale {A : Type} (c : Q) (f : A -> Q) (l : list A) :
  (series_sum (map (fun x => c * f x) l) == c * series_sum (map f l))%Q.
Proof.
  induction l as [|x l IH]; simpl; [ring | rewrite IH; ring].
Qed.

Lemma series_sum_pos {A : Type} (f : A -> Q) (l : list A) :
  l <> [] -> Forall (fun x => 0 < f x)%Q l -> (0 < series_sum (map f l))%Q.
Proof.
  intros Hne H. destruct H as [|x l Hx Hall]; [congruence|].
  assert (H0 : (0 <= series_sum (map f l))%Q).
  { apply series_sum_nonneg, Forall_map.
    eapply Forall_impl; [|exact Hall]. intros y Hy. now apply Qlt_le_weak. }
  simpl. lra.
Qed.

(** X22. On a generated file, whatever is selected: either no order is left
    and the profit-margin card shows 0, or the total revenue is positive and
    the card shows total profit / total revenue x 100, a value between 14.9
    and 40.1. *)
Theorem generated_profit_margin {R : NumpyRandom} (s0 : rng_state)
  (s : FilterSpec) :
  (fdf (load_data (fst (generate s0))) s = []
   /\ profit_margin (fdf (load_data (fst (generate s0))) s) = 0%Q)
  \/ ((0 < total_rev (fdf (load_data (fst (generate s0))) s))%Q
      /\ profit_margin (fdf (load_data (fst (generate s0))) s)
         = (total_profit (fdf (load_data (fst (generate s0))) s)
            / total_rev (fdf (load_data (fst (generate s0))) s) * 100)%Q
      /\ (149 # 10 <= profit_margin (fdf (load_data (fst (generate s0))) s))%Q
      /\ (profit_margin (fdf (load_data (fst (generate s0))) s) <= 401 # 10)%Q).
Proof.
  set (t := fdf (load_data (fst (generate s0))) s).
  destruct t as [|r0 t0] eqn:Et; [left; split; reflexivity|].
  right. rewrite <- Et.
  assert (Hrows : Forall (fun r : Row =>
                            (0 < Revenue r
                             /\ (224 # 1500) * Revenue r <= Profit r
                             /\ Profit r <= (601 # 1500) * Revenue r)%Q) t).
  { apply (fdf_loaded_Forall
             (fun o => (0 < Revenue o
                        /\ (224 # 1500) * Revenue o <= Profit o
                        /\ Profit o <= (601 # 1500) * Revenue o)%Q)).
    eapply Forall_impl; [|exact (proj1 (generate_drawn s0))].
    intros o (_ & Ho).
    destruct (drawn_revenue_bounds _ _ Ho) as (Hrev & _).
    destruct (drawn_profit_bounds _ _ Ho) as (_ & _ & Hlo & Hhi).
    repeat split; lra. }
  assert (Hpos : (0 < total_rev t)%Q).
  { unfold total_rev, column. apply series_sum_pos; [rewrite Et; discriminate|].
    eapply Forall_impl; [|exact Hrows]. intros r (H & _). exact H. }
  assert (Hlo : ((224 # 1500) * total_rev t <= total_profit t)%Q).
  { unfold total_rev, total_profit, column.
    rewrite <- (series_sum_scale (224 # 1500) (fun r : Row => Revenue r)).
    apply series_sum_le.
    eapply Forall_impl; [|exact Hrows]. intros r (_ & H & _). exact H. }
  assert (Hhi : (total_profit t <= (601 # 1500) * total_rev t)%Q).
  { unfold total_rev, total_profit, column.
    rewrite <- (series_sum_scale (601 # 1500) (fun r : Row => Revenue r)).
    apply series_sum_le.
    eapply Forall_impl; [|exact Hrows]. intros r (_ & _ & H). exact H. }
  assert (Hm : profit_margin t = (total_profit t / total_rev t * 100)%Q).
  { unfold profit_margin, Qlt_bool.
    destruct (Qle_bool (total_rev t) 0) eqn:E; [|reflexivity].
    apply Qle_bool_iff in E. exfalso. apply (Qlt_not_le _ _ Hpos E). }
  split; [exact Hpos|]. split; [exact Hm|]. rewrite Hm.
  assert (H1 : (224 # 1500 <= total_profit t / total_rev t)%Q)
    by (now apply Qle_shift_div_l).
  assert (H2 : (total_profit t / total_rev t <= 601 # 1500)%Q)
    by (now apply Qle_shift_div_r).
  split; lra.
Qed.

Lemma fdf_column_incl (key : Order -> string) (known : list string)
  (file_rows : list Order) (s : FilterSpec) :
  Forall (fun o => In (key o) known) file_rows ->
  incl (unique (column (fun r : Row => key r) (fdf (load_data file_rows) s)))
       known.
Proof.
  intros H x Hx. apply (proj1 (unique_In _ _)) in Hx. unfold column in Hx.
  apply in_map_iff in Hx as (r & <- & Hr).
  exact (proj1 (Forall_forall _ _)
               (fdf_loaded_Forall (fun o => In (key o) known) _ s H) r Hr).
Qed.

(** X23. On a generated file the table holds [N_ORDERS] orders, the year
    options are among 2022, 2023 and 2024, and whatever is selected the
    sidebar counts at most 15 cities and at most 29 products. *)
Theorem generated_sidebar {R : NumpyRandom} (s0 : rng_state)
  (s : FilterSpec) :
  total_orders (load_data (fst (generate s0))) = Z.of_nat N_ORDERS
  /\ incl (years (load_data (fst (generate s0)))) [2022; 2023; 2024]
  /\ nunique (column City (fdf (load_data (fst (generate s0))) s)) <= 15
  /\ nunique (column Product (fdf (load_data (fst (generate s0))) s)) <= 29.
Proof.
  destruct (generate_drawn s0) as [Hall Hlen].
  split.
  { unfold total_orders, count, load_data. now rewrite length_map, Hlen. }
  split.
  { intros y Hy. apply (proj1 (years_In _ _)) in Hy.
    unfold column, load_data in Hy.
    rewrite map_map in Hy. apply in_map_iff in Hy as (o & <- & Ho). simpl.
    destruct (proj1 (Forall_forall _ _) Hall o Ho)
      as (Hwin & _ & _ & _ & Hyear & _).
    rewrite Hyear. exact (proj1 (window_calendar_facts _ Hwin)). }
  split.
  - unfold nunique, count.
    assert (Hincl : incl (unique (column (fun r : Row => City r)
                                         (fdf (load_data (fst (generate s0))) s)))
                         all_cities).
    { apply fdf_column_incl. eapply Forall_impl; [|exact Hall].
      intros o (_ & Ho). exact (drawn_city_known _ _ Ho). }
    pose proof (NoDup_incl_length (unique_NoDup _) Hincl) as Hn.
    change (List.length all_cities) with 15%nat in Hn. lia.
  - unfold nunique, count.
    assert (Hincl : incl (unique (column (fun r : Row => Product r)
                                         (fdf (load_data (fst (generate s0))) s)))
                         all_products).
    { intros x Hx. unfold all_products. apply nodup_In. revert x Hx.
      apply fdf_column_incl. eapply Forall_impl; [|exact Hall].
      intros o (_ & Ho). exact (drawn_product_in_catalogue _ _ Ho). }
    pose proof (NoDup_incl_length (unique_NoDup _) Hincl) as Hn.
    change (List.length all_products) with 29%nat in Hn. lia.
Qed.

(** ** The columns added on load *)

Lemma window_load_checked :
  forallb window_load_check
          (map (fun k => add_days START_DATE (Z.of_nat k)) (seq 0 1096))
  = true.
Proof. vm_compute. reflexivity. Qed.

Lemma window_load_check_holds (t : date) :
  START_DATE <= t <= END_DATE -> window_load_check t = true.
Proof.
  intros H. pose proof window_load_checked as Hc.
  rewrite forallb_forall in Hc. apply Hc.
  apply in_map_iff. exists (Z.to_nat (t - START_DATE)). split.
  - unfold add_days. lia.
  - apply in_seq. rewrite <- window_end in H. unfold add_days in H.
    change total_days with 1095 in H. lia.
Qed.

(** X24. Loading a generated file keeps its rows, in order, and adds to each
    the month period, day name and ISO week of its date: the day name is one
    of the seven of the day-of-week view, the week number lies between 1 and
    53, and the month period has the seven characters of YYYY-MM. *)
Theorem generated_loaded_columns {R : NumpyRandom} (s0 : rng_state) :
  map order (load_data (fst (generate s0))) = fst (generate s0)
  /\ Forall (fun r : Row =>
               MonthNum r = month_period (Date r)
               /\ DayOfWeek r = day_name (Date r)
               /\ WeekNum r = iso_week (Date r)
               /\ In (DayOfWeek r) dow_order
               /\ 1 <= WeekNum r <= 53
               /\ String.length (MonthNum r) = 7%nat)
            (load_data (fst (generate s0))).
Proof.
  split.
  { unfold load_data. rewrite map_map. simpl. apply map_id. }
  unfold load_data. apply Forall_map.
  eapply Forall_impl; [|exact (proj1 (generate_drawn s0))].
  intros o (Hwin & _). simpl.
  apply window_load_check_holds in Hwin. unfold window_load_check in Hwin.
  rewrite !andb_true_iff in Hwin. destruct Hwin as ((H1 & H2) & H3).
  apply Z.leb_le in H1, H2. apply Nat.eqb_eq in H3.
  repeat split; try assumption. apply day_name_in_dow_order.
Qed.
